(** * GPU code verifier (src/pass/verify_gpu_code.cc)

    A shallow embedding of [GPUCodeVerifier] and [VerifyGPUCode], and the
    properties of the traversal: per-kernel resets, thread-extent
    deduplication, storage-scope classification, memory accounting and the
    accumulated verdict. *)

From stdpp Require Import gmap strings list.
From Stdlib Require Import ZArith Lia.

Local Open Scope string_scope.
Local Open Scope Z_scope.

(** ** Machine integers *)

(** [size_t] on the 64-bit targets the pass is built for: an unsigned 64-bit
    integer.  [static_cast<size_t>(x)] and every [size_t] operation reduce
    modulo [2^64]. *)
Definition SIZE_MODULUS : Z := 2 ^ 64.
Definition to_size_t (x : Z) : Z := x mod SIZE_MODULUS.
Definition size_mul (a b : Z) : Z := to_size_t (a * b).
Definition size_add (a b : Z) : Z := to_size_t (a + b).

Definition INT64_MAX : Z := 2 ^ 63 - 1.
Definition INT_MAX : Z := 2 ^ 31 - 1.

(** ** Outcomes

    The verifier either runs to completion or stops in one of the ways the
    source allows: the guarded [CHECK(extent)], or an unguarded read through
    the null pointer that a failed [as<T>()] downcast returns, or signed
    overflow of the [int] nest counter. *)
Inductive failure : Type :=
| CHECK_failed          (* CHECK(extent): fatal internal error *)
| null_StringImm        (* op->value.as<StringImm>()->value on a null pointer *)
| null_IterVarNode      (* op->node.as<IterVarNode>()->var on a null pointer *)
| null_IntImm           (* iter->second.as<IntImm>()->value on a null pointer *)
| nest_level_overflow.  (* nest_level_++ at INT_MAX *)

Inductive result (A : Type) : Type :=
| Ok (a : A)
| Stop (f : failure).
Arguments Ok {A} a.
Arguments Stop {A} f.

Definition bind {A B : Type} (r : result A) (k : A -> result B) : result B :=
  match r with
  | Ok a => k a
  | Stop f => Stop f
  end.

Notation "'let*' x := e 'in' k" := (bind e (fun x => k))
  (at level 10, x name, e at level 200, k at level 200).

(** The guarded failure is the only internal error the code raises itself;
    the others are reads the code performs without a guard. *)
Definition is_internal_error (f : failure) : bool :=
  match f with CHECK_failed => true | _ => false end.

Definition is_unchecked_dereference (f : failure) : bool :=
  match f with
  | null_StringImm | null_IterVarNode | null_IntImm => true
  | _ => false
  end.

(** ** The statement tree *)

(** Modelled from the spec: the IR node classes are declared in tvm/ir.h and
    HalideIR, outside this file.  A variable node (class [Variable]) is
    identified by its address, since the classification sets hold
    [const Variable*]; the verifier reads its [name_hint].  Of an iteration
    variable the verifier reads [var], never the [thread_tag]. *)
Record VariableNode : Type := mkVariable {
  var_addr : positive;
  name_hint : string
}.

Record IterVarNode : Type := mkIterVarNode {
  var : VariableNode;
  thread_tag : string
}.

(** A [const Variable*]; [None] is the null pointer. *)
Abbreviation VariablePtr := (option positive).

Definition get (v : VariableNode) : VariablePtr := Some (var_addr v).

(** The target of an annotation: any node reference. *)
Inductive NodeRef : Type :=
| NodeVariable (v : VariableNode)
| NodeIterVar (iv : IterVarNode)
| NodeOther.

Definition as_Variable (n : NodeRef) : VariablePtr :=
  match n with NodeVariable v => get v | _ => None end.

Definition as_IterVarNode (n : NodeRef) : option IterVarNode :=
  match n with NodeIterVar iv => Some iv | _ => None end.

(** Expressions: the two constant kinds the verifier downcasts to, and
    everything else.  No expression contains a statement. *)
Inductive Expr : Type :=
| IntImm (value : Z)
| StringImm (value : string)
| UIntImm (value : Z)
| OtherExpr.

Definition as_IntImm (e : Expr) : option Z :=
  match e with IntImm v => Some v | _ => None end.

Definition as_StringImm (e : Expr) : option string :=
  match e with StringImm s => Some s | _ => None end.

(** Statements.  [Allocate] carries what [op->type.bytes()] and
    [op->constant_allocation_size()] return for the node.  [OtherStmt] stands
    for every node kind the verifier does not override (Block, For,
    IfThenElse, LetStmt, Store, Evaluate, ...): the inherited visitor visits
    its child statements in order. *)
Unset Elimination Schemes.
Inductive Stmt : Type :=
| ProducerConsumer (is_producer : bool) (body : Stmt)
| Allocate (buffer_var : VariableNode) (type_bytes : Z)
           (constant_allocation_size : Z) (body : Stmt)
| AttrStmt (node : NodeRef) (attr_key : string) (value : Expr) (body : Stmt)
| OtherStmt (children : list Stmt).
Set Elimination Schemes.

(** Induction over statements, with the hypothesis for every child of an
    [OtherStmt]. *)
Section Stmt_ind.
Variable P : Stmt -> Prop.
Hypothesis H_ProducerConsumer :
  forall is_producer body, P body -> P (ProducerConsumer is_producer body).
Hypothesis H_Allocate :
  forall buffer_var type_bytes constant_allocation_size body,
    P body -> P (Allocate buffer_var type_bytes constant_allocation_size body).
Hypothesis H_AttrStmt :
  forall node attr_key value body, P body -> P (AttrStmt node attr_key value body).
Hypothesis H_OtherStmt :
  forall children, Forall P children -> P (OtherStmt children).

Fixpoint Stmt_ind (s : Stmt) : P s :=
  match s with
  | ProducerConsumer p b => H_ProducerConsumer p b (Stmt_ind b)
  | Allocate v t n b => H_Allocate v t n b (Stmt_ind b)
  | AttrStmt nd k e b => H_AttrStmt nd k e b (Stmt_ind b)
  | OtherStmt cs =>
      H_OtherStmt cs
        ((fix all (l : list Stmt) : Forall P l :=
            match l with
            | [] => @List.Forall_nil _ P
            | c :: l' => @List.Forall_cons _ P c l' (Stmt_ind c) (all l')
            end) cs)
  end.
End Stmt_ind.

(** Modelled from the spec: the attribute keys [attr::storage_scope] and
    [attr::thread_extent] of tvm/ir.h. *)
Definition storage_scope : string := "storage_scope".
Definition thread_extent : string := "thread_extent".

(** ** The verifier object *)

Record GPUCodeVerifier : Type := mkGPUCodeVerifier {
  nest_level_ : Z;
  visited_local_buffers_ : gset VariablePtr;
  visited_shared_buffers_ : gset VariablePtr;
  visited_threads_ : gset string;
  local_memory_per_block_ : Z;
  shared_memory_per_block_ : Z;
  thread_per_block_ : Z;
  max_local_memory_per_block_ : Z;
  max_shared_memory_per_block_ : Z;
  max_thread_per_block_ : Z;
  max_thread_x_ : Z;
  max_thread_y_ : Z;
  max_thread_z_ : Z;
  valid_ : bool
}.

Section Setters.
Variable this : GPUCodeVerifier.

Definition set_nest_level_ (n : Z) : GPUCodeVerifier :=
  mkGPUCodeVerifier n
    (visited_local_buffers_ this) (visited_shared_buffers_ this)
    (visited_threads_ this)
    (local_memory_per_block_ this) (shared_memory_per_block_ this)
    (thread_per_block_ this)
    (max_local_memory_per_block_ this) (max_shared_memory_per_block_ this)
    (max_thread_per_block_ this)
    (max_thread_x_ this) (max_thread_y_ this) (max_thread_z_ this)
    (valid_ this).

Definition set_visited_local_buffers_ (s : gset VariablePtr) : GPUCodeVerifier :=
  mkGPUCodeVerifier (nest_level_ this)
    s (visited_shared_buffers_ this)
    (visited_threads_ this)
    (local_memory_per_block_ this) (shared_memory_per_block_ this)
    (thread_per_block_ this)
    (max_local_memory_per_block_ this) (max_shared_memory_per_block_ this)
    (max_thread_per_block_ this)
    (max_thread_x_ this) (max_thread_y_ this) (max_thread_z_ this)
    (valid_ this).

Definition set_visited_shared_buffers_ (s : gset VariablePtr) : GPUCodeVerifier :=
  mkGPUCodeVerifier (nest_level_ this)
    (visited_local_buffers_ this) s
    (visited_threads_ this)
    (local_memory_per_block_ this) (shared_memory_per_block_ this)
    (thread_per_block_ this)
    (max_local_memory_per_block_ this) (max_shared_memory_per_block_ this)
    (max_thread_per_block_ this)
    (max_thread_x_ this) (max_thread_y_ this) (max_thread_z_ this)
    (valid_ this).

Definition set_visited_threads_ (s : gset string) : GPUCodeVerifier :=
  mkGPUCodeVerifier (nest_level_ this)
    (visited_local_buffers_ this) (visited_shared_buffers_ this)
    s
    (local_memory_per_block_ this) (shared_memory_per_block_ this)
    (thread_per_block_ this)
    (max_local_memory_per_block_ this) (max_shared_memory_per_block_ this)
    (max_thread_per_block_ this)
    (max_thread_x_ this) (max_thread_y_ this) (max_thread_z_ this)
    (valid_ this).

Definition set_local_memory_per_block_ (n : Z) : GPUCodeVerifier :=
  mkGPUCodeVerifier (nest_level_ this)
    (visited_local_buffers_ this) (visited_shared_buffers_ this)
    (visited_threads_ this)
    n (shared_memory_per_block_ this)
    (thread_per_block_ this)
    (max_local_memory_per_block_ this) (max_shared_memory_per_block_ this)
    (max_thread_per_block_ this)
    (max_thread_x_ this) (max_thread_y_ this) (max_thread_z_ this)
    (valid_ this).

Definition set_shared_memory_per_block_ (n : Z) : GPUCodeVerifier :=
  mkGPUCodeVerifier (nest_level_ this)
    (visited_local_buffers_ this) (visited_shared_buffers_ this)
    (visited_threads_ this)
    (local_memory_per_block_ this) n
    (thread_per_block_ this)
    (max_local_memory_per_block_ this) (max_shared_memory_per_block_ this)
    (max_thread_per_block_ this)
    (max_thread_x_ this) (max_thread_y_ this) (max_thread_z_ this)
    (valid_ this).

Definition set_thread_per_block_ (n : Z) : GPUCodeVerifier :=
  mkGPUCodeVerifier (nest_level_ this)
    (visited_local_buffers_ this) (visited_shared_buffers_ this)
    (visited_threads_ this)
    (local_memory_per_block_ this) (shared_memory_per_block_ this)
    n
    (max_local_memory_per_block_ this) (max_shared_memory_per_block_ this)
    (max_thread_per_block_ this)
    (max_thread_x_ this) (max_thread_y_ this) (max_thread_z_ this)
    (valid_ this).

Definition set_valid_ (b : bool) : GPUCodeVerifier :=
  mkGPUCodeVerifier (nest_level_ this)
    (visited_local_buffers_ this) (visited_shared_buffers_ this)
    (visited_threads_ this)
    (local_memory_per_block_ this) (shared_memory_per_block_ this)
    (thread_per_block_ this)
    (max_local_memory_per_block_ this) (max_shared_memory_per_block_ this)
    (max_thread_per_block_ this)
    (max_thread_x_ this) (max_thread_y_ this) (max_thread_z_ this)
    b.

(** The six assignments at the head of [Verify]. *)
Definition set_bounds_ (ml ms mt mx my mz : Z) : GPUCodeVerifier :=
  mkGPUCodeVerifier (nest_level_ this)
    (visited_local_buffers_ this) (visited_shared_buffers_ this)
    (visited_threads_ this)
    (local_memory_per_block_ this) (shared_memory_per_block_ this)
    (thread_per_block_ this)
    (to_size_t ml) (to_size_t ms) (to_size_t mt)
    (to_size_t mx) (to_size_t my) (to_size_t mz)
    (valid_ this).
End Setters.

(** [valid_ &= b] *)
Definition and_valid_ (b : bool) (this : GPUCodeVerifier) : GPUCodeVerifier :=
  set_valid_ this (valid_ this && b).

(** [GPUCodeVerifier::Reset_] *)
Definition Reset_ (this : GPUCodeVerifier) : GPUCodeVerifier :=
  let this := set_visited_local_buffers_ this ∅ in
  let this := set_visited_shared_buffers_ this ∅ in
  let this := set_local_memory_per_block_ this 0 in
  let this := set_shared_memory_per_block_ this 0 in
  let this := set_visited_threads_ this ∅ in
  set_thread_per_block_ this 1.

(** ** The visitor callbacks

    Each override is written over [visit_body], the call
    [IRVisitor::Visit_(op)] of the base class restricted to what can change
    the verifier: the visit of the node's child statement.  (The base class
    also visits the node's expressions, which contain no statement and so
    reach no override.) *)
Section Callbacks.
Variable visit_body : Stmt -> GPUCodeVerifier -> result GPUCodeVerifier.

(** [nest_level_++] on an [int]. *)
Definition incr_nest_level_ (this : GPUCodeVerifier) : result GPUCodeVerifier :=
  if nest_level_ this =? INT_MAX then Stop nest_level_overflow
  else Ok (set_nest_level_ this (nest_level_ this + 1)).

Definition decr_nest_level_ (this : GPUCodeVerifier) : GPUCodeVerifier :=
  set_nest_level_ this (nest_level_ this - 1).

(** The three checks at the exit of a kernel. *)
Definition check_kernel_ (this : GPUCodeVerifier) : GPUCodeVerifier :=
  let this := and_valid_ (thread_per_block_ this <=? max_thread_per_block_ this) this in
  let this := and_valid_ (local_memory_per_block_ this <=? max_local_memory_per_block_ this) this in
  and_valid_ (shared_memory_per_block_ this <=? max_shared_memory_per_block_ this) this.

(** [Visit_(const ProducerConsumer *op)] *)
Definition Visit_ProducerConsumer (is_producer : bool) (body : Stmt)
    (this : GPUCodeVerifier) : result GPUCodeVerifier :=
  let this := if nest_level_ this =? 0 then Reset_ this else this in
  let* this :=
    (if is_producer then
       let* this := incr_nest_level_ this in
       let* this := visit_body body this in
       Ok (decr_nest_level_ this)
     else visit_body body this) in
  Ok (if nest_level_ this =? 0 then check_kernel_ this else this).

(** [Visit_(const Allocate *op)] *)
Definition Visit_Allocate (buffer_var : VariableNode) (type_bytes : Z)
    (constant_allocation_size : Z) (body : Stmt)
    (this : GPUCodeVerifier) : result GPUCodeVerifier :=
  let* this := visit_body body this in
  if bool_decide (get buffer_var ∈ visited_local_buffers_ this) then
    let size := to_size_t constant_allocation_size in
    Ok (set_local_memory_per_block_ this
          (size_add (local_memory_per_block_ this)
                    (size_mul size (to_size_t type_bytes))))
  else if bool_decide (get buffer_var ∈ visited_shared_buffers_ this) then
    let size := to_size_t constant_allocation_size in
    Ok (set_shared_memory_per_block_ this
          (size_add (shared_memory_per_block_ this)
                    (size_mul size (to_size_t type_bytes))))
  else Ok this.

(** The body of [if (!visited_threads_.count(name))]. *)
Definition count_thread_ (name : string) (extent : Z)
    (this : GPUCodeVerifier) : GPUCodeVerifier :=
  let this := set_visited_threads_ this ({[ name ]} ∪ visited_threads_ this) in
  let length := to_size_t extent in
  let this := set_thread_per_block_ this (size_mul (thread_per_block_ this) length) in
  if String.eqb name "threadIdx.x" then
    and_valid_ (length <=? max_thread_x_ this) this
  else if String.eqb name "threadIdx.y" then
    and_valid_ (length <=? max_thread_y_ this) this
  else if String.eqb name "threadIdx.z" then
    and_valid_ (length <=? max_thread_z_ this) this
  else this.

Definition is_thread_name (name : string) : bool :=
  String.eqb name "threadIdx.x" || String.eqb name "threadIdx.y"
  || String.eqb name "threadIdx.z".

(** The two annotation branches of [Visit_(const AttrStmt *op)], before
    the call of the base class. *)
Definition annotate_ (node : NodeRef) (attr_key : string) (value : Expr)
    (this : GPUCodeVerifier) : result GPUCodeVerifier :=
  if String.eqb attr_key storage_scope then
    match as_StringImm value with
    | None => Stop null_StringImm
    | Some scope =>
        if String.eqb scope "local" then
          Ok (set_visited_local_buffers_ this
                ({[ as_Variable node ]} ∪ visited_local_buffers_ this))
        else if String.eqb scope "shared" then
          Ok (set_visited_shared_buffers_ this
                ({[ as_Variable node ]} ∪ visited_shared_buffers_ this))
        else Ok this
    end
  else if String.eqb attr_key thread_extent then
    match as_IterVarNode node with
    | None => Stop null_IterVarNode
    | Some iv =>
        let var := var iv in
        match as_IntImm value with
        | None => Stop CHECK_failed
        | Some extent =>
            let name := name_hint var in
            if is_thread_name name then
              if negb (bool_decide (name ∈ visited_threads_ this)) then
                Ok (count_thread_ name extent this)
              else Ok this
            else Ok this
        end
    end
  else Ok this.

(** [Visit_(const AttrStmt *op)] *)
Definition Visit_AttrStmt (node : NodeRef) (attr_key : string) (value : Expr)
    (body : Stmt) (this : GPUCodeVerifier) : result GPUCodeVerifier :=
  let* this := annotate_ node attr_key value this in
  visit_body body this.
End Callbacks.

(** Modelled from the spec: [IRVisitor::Visit] of the base class
    (tvm/ir_visitor.h) dispatches on the node kind to the callbacks, and its
    own traversal of the kinds that are not overridden visits the child
    statements in order, with no change of its own. *)
Fixpoint Visit (s : Stmt) (this : GPUCodeVerifier) {struct s} : result GPUCodeVerifier :=
  match s with
  | ProducerConsumer is_producer body =>
      Visit_ProducerConsumer Visit is_producer body this
  | Allocate buffer_var type_bytes constant_allocation_size body =>
      Visit_Allocate Visit buffer_var type_bytes constant_allocation_size body this
  | AttrStmt node attr_key value body =>
      Visit_AttrStmt Visit node attr_key value body this
  | OtherStmt children =>
      (fix visit_children (cs : list Stmt) (this : GPUCodeVerifier)
         : result GPUCodeVerifier :=
         match cs with
         | [] => Ok this
         | c :: cs => let* this := Visit c this in visit_children cs this
         end) children this
  end.

Fixpoint visit_children (cs : list Stmt) (this : GPUCodeVerifier)
    : result GPUCodeVerifier :=
  match cs with
  | [] => Ok this
  | c :: cs => let* this := Visit c this in visit_children cs this
  end.

(** [GPUCodeVerifier::Verify] *)
Definition Verify (this : GPUCodeVerifier) (stmt : Stmt)
    (max_local_memory_per_block max_shared_memory_per_block
     max_thread_per_block max_thread_x max_thread_y max_thread_z : Z)
    : result bool :=
  let this := set_bounds_ this
                max_local_memory_per_block max_shared_memory_per_block
                max_thread_per_block max_thread_x max_thread_y max_thread_z in
  let this := Reset_ this in
  let* this := Visit stmt this in
  Ok (valid_ this).

(** A freshly constructed verifier: [nest_level_{0}], [valid_{true}]; the
    other members have no initializer and are all assigned by [Verify]
    before they are read. *)
Definition new_GPUCodeVerifier : GPUCodeVerifier :=
  mkGPUCodeVerifier 0 ∅ ∅ ∅ 0 0 0 0 0 0 0 0 0 true.

(** The lambda [get_int] of [VerifyGPUCode]. *)
Definition get_int (constraints : gmap string Expr) (key : string) (def : Z)
    : result Z :=
  match constraints !! key with
  | Some e =>
      match as_IntImm e with
      | Some v => Ok v
      | None => Stop null_IntImm
      end
  | None => Ok def
  end.

(** [VerifyGPUCode] *)
Definition VerifyGPUCode (stmt : Stmt) (constraints : gmap string Expr)
    : result bool :=
  let verifier := new_GPUCodeVerifier in
  let* max_local_memory_per_block :=
    get_int constraints "max_local_memory_per_block" INT64_MAX in
  let* max_shared_memory_per_block :=
    get_int constraints "max_shared_memory_per_block" INT64_MAX in
  let* max_thread_per_block := get_int constraints "max_thread_per_block" INT64_MAX in
  let* max_thread_x := get_int constraints "max_thread_x" INT64_MAX in
  let* max_thread_y := get_int constraints "max_thread_y" INT64_MAX in
  let* max_thread_z := get_int constraints "max_thread_z" INT64_MAX in
  Verify verifier stmt
    max_local_memory_per_block max_shared_memory_per_block
    max_thread_per_block max_thread_x max_thread_y max_thread_z.

(** ** Trees used in the examples *)

Definition threadIdx_x : NodeRef :=
  NodeIterVar (mkIterVarNode (mkVariable 1 "threadIdx.x") "threadIdx.x").
Definition threadIdx_y : NodeRef :=
  NodeIterVar (mkIterVarNode (mkVariable 2 "threadIdx.y") "threadIdx.y").
Definition threadIdx_z : NodeRef :=
  NodeIterVar (mkIterVarNode (mkVariable 3 "threadIdx.z") "threadIdx.z").
Definition blockIdx_x : NodeRef :=
  NodeIterVar (mkIterVarNode (mkVariable 4 "blockIdx.x") "blockIdx.x").

Definition Evaluate : Stmt := OtherStmt [].
Definition Block (first rest : Stmt) : Stmt := OtherStmt [first; rest].

(** One kernel with [threadIdx.x] of extent 32 and [threadIdx.y] of extent 8. *)
Definition kernel_32_8 : Stmt :=
  ProducerConsumer true
    (AttrStmt threadIdx_x thread_extent (IntImm 32)
       (AttrStmt threadIdx_y thread_extent (IntImm 8) Evaluate)).

Definition limits_256 : gmap string Expr :=
  <["max_thread_per_block" := IntImm 256]>
    (<["max_thread_x" := IntImm 32]> (<["max_thread_y" := IntImm 16]> ∅)).

Definition limits_255 : gmap string Expr :=
  <["max_thread_per_block" := IntImm 255]>
    (<["max_thread_x" := IntImm 32]> (<["max_thread_y" := IntImm 16]> ∅)).

(** Proves an equality or a membership of sets of names through their
    members. *)
Ltac by_membership :=
  lazymatch goal with
  | |- @eq (gset _) _ _ => apply set_eq; intros ?
  | |- _ => idtac
  end;
  rewrite ?elem_of_union, ?elem_of_singleton, ?elem_of_empty;
  intuition (subst; try congruence; auto).

(** Closes a decidable goal by evaluating its decision procedure. *)
Ltac by_decide :=
  match goal with
  | |- ?P => apply (bool_decide_unpack P); vm_compute; exact I
  end.

(** ** Relations between verifier states *)

(** [b] has the nest level and the six bounds of [a]. *)
Definition same_config (a b : GPUCodeVerifier) : Prop :=
  nest_level_ b = nest_level_ a
  /\ max_local_memory_per_block_ b = max_local_memory_per_block_ a
  /\ max_shared_memory_per_block_ b = max_shared_memory_per_block_ a
  /\ max_thread_per_block_ b = max_thread_per_block_ a
  /\ max_thread_x_ b = max_thread_x_ a
  /\ max_thread_y_ b = max_thread_y_ a
  /\ max_thread_z_ b = max_thread_z_ a.

(** ** Kernel regions *)

(** The state in which the body of a marker is visited. *)
Definition entered (is_producer : bool) (this : GPUCodeVerifier) : GPUCodeVerifier :=
  let this := if nest_level_ this =? 0 then Reset_ this else this in
  if is_producer then set_nest_level_ this (nest_level_ this + 1) else this.

(** The verifier as [Verify] hands it to the traversal. *)
Definition configured (this : GPUCodeVerifier)
    (ml ms mt mx my mz : Z) : GPUCodeVerifier :=
  Reset_ (set_bounds_ this ml ms mt mx my mz).

(** Two top-level states that differ only in what [Reset_] overwrites. *)
Definition same_outside_kernel (a b : GPUCodeVerifier) : Prop :=
  same_config a b /\ valid_ b = valid_ a.

(** Sibling kernels: one with 1024 threads along x, one within all bounds. *)
Definition kernel_1024 : Stmt :=
  ProducerConsumer true (AttrStmt threadIdx_x thread_extent (IntImm 1024) Evaluate).

Definition start_256 : GPUCodeVerifier :=
  configured new_GPUCodeVerifier INT64_MAX INT64_MAX 256 32 16 INT64_MAX.

(** The state the violating kernel leaves behind. *)
Definition after_kernel_1024 : GPUCodeVerifier :=
  match Visit kernel_1024 start_256 with
  | Ok this => this
  | Stop _ => start_256
  end.

(** ** Allocations *)

(** [size * op->type.bytes()], computed in [size_t]. *)
Definition allocation_size (constant_allocation_size type_bytes : Z) : Z :=
  size_mul (to_size_t constant_allocation_size) (to_size_t type_bytes).

Definition buffer_A : VariableNode := mkVariable 10 "A".
Definition buffer_B : VariableNode := mkVariable 11 "B".

(** A kernel allocating 1024 four-byte elements of a buffer classified
    "shared". *)
Definition kernel_shared_4096 : Stmt :=
  ProducerConsumer true
    (AttrStmt (NodeVariable buffer_A) storage_scope (StringImm "shared")
       (Allocate buffer_A 4 1024 Evaluate)).

(** The same allocation, never classified. *)
Definition kernel_unclassified_4096 : Stmt :=
  ProducerConsumer true (Allocate buffer_A 4 1024 Evaluate).

(** The classifying annotation inside the allocation's body. *)
Definition kernel_classified_inside : Stmt :=
  ProducerConsumer true
    (Allocate buffer_A 4 1024
       (AttrStmt (NodeVariable buffer_A) storage_scope (StringImm "shared") Evaluate)).

(** The classifying annotation after the allocation has been accounted. *)
Definition kernel_classified_late : Stmt :=
  ProducerConsumer true
    (Block (Allocate buffer_A 4 1024 Evaluate)
       (AttrStmt (NodeVariable buffer_A) storage_scope (StringImm "shared") Evaluate)).

Definition shared_limit (n : Z) : gmap string Expr :=
  <["max_shared_memory_per_block" := IntImm n]> ∅.

Definition local_limit (n : Z) : gmap string Expr :=
  <["max_local_memory_per_block" := IntImm n]> ∅.

(** ** Thread extents *)

(** The per-dimension bound a thread name is checked against. *)
Definition thread_bound (name : string) (this : GPUCodeVerifier) : Z :=
  if String.eqb name "threadIdx.x" then max_thread_x_ this
  else if String.eqb name "threadIdx.y" then max_thread_y_ this
  else max_thread_z_ this.

(** A second iteration variable with the name of [threadIdx_x]. *)
Definition threadIdx_x' : NodeRef :=
  NodeIterVar (mkIterVarNode (mkVariable 5 "threadIdx.x") "threadIdx.x").

Definition kernel_x16_twice : Stmt :=
  ProducerConsumer true
    (AttrStmt threadIdx_x thread_extent (IntImm 16)
       (AttrStmt threadIdx_x' thread_extent (IntImm 16) Evaluate)).

Definition kernel_x16_then_x64 : Stmt :=
  ProducerConsumer true
    (AttrStmt threadIdx_x thread_extent (IntImm 16)
       (AttrStmt threadIdx_x' thread_extent (IntImm 64) Evaluate)).

Definition limits_x16 : gmap string Expr :=
  <["max_thread_x" := IntImm 16]> (<["max_thread_per_block" := IntImm 16]> ∅).

(** ** Predicates on trees *)

(** Every annotation node of the tree satisfies [P]. *)
Fixpoint every_annotation (P : NodeRef -> string -> Expr -> bool) (s : Stmt) : bool :=
  match s with
  | ProducerConsumer _ body => every_annotation P body
  | Allocate _ _ _ body => every_annotation P body
  | AttrStmt node attr_key value body =>
      P node attr_key value && every_annotation P body
  | OtherStmt children => forallb (every_annotation P) children
  end.

(** The tree has no kernel-region marker. *)
Fixpoint no_kernel_marker (s : Stmt) : bool :=
  match s with
  | ProducerConsumer _ _ => false
  | Allocate _ _ _ body => no_kernel_marker body
  | AttrStmt _ _ _ body => no_kernel_marker body
  | OtherStmt children => forallb no_kernel_marker children
  end.

(** A storage-scope annotation carries a string constant. *)
Definition scope_is_string (node : NodeRef) (attr_key : string) (value : Expr) : bool :=
  if String.eqb attr_key storage_scope then
    match as_StringImm value with Some _ => true | None => false end
  else true.

(** A thread-extent annotation has an iteration variable as target and a
    constant integer as value. *)
Definition thread_extent_is_typed (node : NodeRef) (attr_key : string)
    (value : Expr) : bool :=
  if String.eqb attr_key thread_extent then
    match as_IterVarNode node, as_IntImm value with
    | Some _, Some _ => true
    | _, _ => false
    end
  else true.

Definition annotation_well_formed (node : NodeRef) (attr_key : string)
    (value : Expr) : bool :=
  scope_is_string node attr_key value && thread_extent_is_typed node attr_key value.

(** What a thread-extent annotation of threadIdx.x, .y or .z with a constant
    extent declares: its name and its extent. *)
Definition thread_extent_of (node : NodeRef) (attr_key : string) (value : Expr)
    : list (string * Z) :=
  if String.eqb attr_key thread_extent then
    match as_IterVarNode node, as_IntImm value with
    | Some iv, Some extent =>
        if is_thread_name (name_hint (var iv))
        then [(name_hint (var iv), extent)]
        else []
    | _, _ => []
    end
  else [].

(** The thread-extent declarations of a tree in visiting order: an
    annotation before its body, children from first to last. *)
Fixpoint thread_extents (s : Stmt) : list (string * Z) :=
  match s with
  | ProducerConsumer _ body => thread_extents body
  | Allocate _ _ _ body => thread_extents body
  | AttrStmt node attr_key value body =>
      thread_extent_of node attr_key value ++ thread_extents body
  | OtherStmt children => flat_map thread_extents children
  end.

(** The extent of the first declaration of [name], if there is one. *)
Fixpoint first_extent (name : string) (l : list (string * Z)) : option Z :=
  match l with
  | [] => None
  | (n, extent) :: l =>
      if String.eqb n name then Some extent else first_extent name l
  end.

(** The first declaration of [name], if there is one, is within [bound]. *)
Definition first_within (bound : Z) (name : string) (l : list (string * Z)) : bool :=
  match first_extent name l with
  | Some extent => to_size_t extent <=? bound
  | None => true
  end.

(** The bound of the dimension of a thread name. *)
Definition dimension_bound (mx my mz : Z) (name : string) : Z :=
  if String.eqb name "threadIdx.x" then mx
  else if String.eqb name "threadIdx.y" then my
  else mz.

(** The declarations scanned in order, skipping a name already seen: every
    other one is within the bound of its dimension. *)
Fixpoint first_extents_within (mx my mz : Z) (seen : gset string)
    (l : list (string * Z)) : bool :=
  match l with
  | [] => true
  | (name, extent) :: l =>
      if bool_decide (name ∈ seen) then first_extents_within mx my mz seen l
      else (to_size_t extent <=? dimension_bound mx my mz name)
           && first_extents_within mx my mz ({[ name ]} ∪ seen) l
  end.

(** The names declared in a list. *)
Definition declared (l : list (string * Z)) : gset string :=
  list_to_set (map fst l).

Definition scope_not_a_string : Stmt :=
  ProducerConsumer true
    (AttrStmt (NodeVariable buffer_A) storage_scope (IntImm 1)
       (Allocate buffer_A 4 1024 Evaluate)).

(** ** Malformed input *)

Definition limit_names : list string :=
  [ "max_local_memory_per_block"; "max_shared_memory_per_block";
    "max_thread_per_block"; "max_thread_x"; "max_thread_y"; "max_thread_z" ].

(** A thread-extent annotation whose target is not an iteration variable. *)
Definition kernel_untyped_target : Stmt :=
  ProducerConsumer true
    (AttrStmt (NodeVariable buffer_A) thread_extent (IntImm 32) Evaluate).

(** A thread-extent annotation whose extent is not a constant. *)
Definition kernel_symbolic_extent : Stmt :=
  ProducerConsumer true (AttrStmt threadIdx_x thread_extent OtherExpr Evaluate).

Definition limit_not_constant : gmap string Expr :=
  <["max_thread_x" := StringImm "32"]> ∅.

(** A thread-extent annotation outside any kernel region. *)
Definition x64_outside_kernel : Stmt :=
  AttrStmt threadIdx_x thread_extent (IntImm 64) Evaluate.

Definition limit_x32 : gmap string Expr := <["max_thread_x" := IntImm 32]> ∅.

(** [threadIdx.x] declared with extent 16 and again with extent 64, outside
    any kernel region. *)
Definition x16_then_x64_outside_kernel : Stmt :=
  AttrStmt threadIdx_x thread_extent (IntImm 16)
    (AttrStmt threadIdx_x' thread_extent (IntImm 64)
       (Allocate buffer_A 4 1024 Evaluate)).

(** Allocations and classifications outside any kernel, under tiny limits. *)
Definition allocations_outside_kernel : Stmt :=
  AttrStmt (NodeVariable buffer_A) storage_scope (StringImm "shared")
    (Allocate buffer_A 4 1024
       (AttrStmt (NodeVariable buffer_B) storage_scope (StringImm "local")
          (Allocate buffer_B 8 4096
             (AttrStmt threadIdx_x thread_extent (IntImm 32) Evaluate)))).

(** ** The checks behind the verdict

    The traversal again, returning next to the verifier the list of the
    results that were ANDed into [valid_], in the order of the [valid_ &= ...]
    statements executed. *)

Definition checked (A : Type) : Type := result (A * list bool).

Definition bind_checked {A B : Type} (r : checked A) (k : A -> checked B)
    : checked B :=
  match r with
  | Ok (a, l) =>
      match k a with
      | Ok (b, l') => Ok (b, (l ++ l')%list)
      | Stop f => Stop f
      end
  | Stop f => Stop f
  end.

Notation "'let+' x := e 'in' k" := (bind_checked e (fun x => k))
  (at level 10, x name, e at level 200, k at level 200).

(** A step that checks nothing. *)
Definition unchecked {A : Type} (r : result A) : checked A :=
  match r with
  | Ok a => Ok (a, [])
  | Stop f => Stop f
  end.

(** [valid_ &= b], recorded. *)
Definition and_valid_checked (b : bool) (this : GPUCodeVerifier)
    : checked GPUCodeVerifier :=
  Ok (and_valid_ b this, [b]).

(** The run without the record. *)
Definition erase {A : Type} (r : checked A) : result A :=
  match r with
  | Ok (a, _) => Ok a
  | Stop f => Stop f
  end.

Section CheckedCallbacks.
Variable visit_body : Stmt -> GPUCodeVerifier -> checked GPUCodeVerifier.

Definition check_kernel_checked (this : GPUCodeVerifier) : checked GPUCodeVerifier :=
  let+ this :=
    and_valid_checked (thread_per_block_ this <=? max_thread_per_block_ this) this in
  let+ this :=
    and_valid_checked
      (local_memory_per_block_ this <=? max_local_memory_per_block_ this) this in
  and_valid_checked
    (shared_memory_per_block_ this <=? max_shared_memory_per_block_ this) this.

Definition Visit_ProducerConsumer_checked (is_producer : bool) (body : Stmt)
    (this : GPUCodeVerifier) : checked GPUCodeVerifier :=
  let this := if nest_level_ this =? 0 then Reset_ this else this in
  let+ this :=
    (if is_producer then
       let+ this := unchecked (incr_nest_level_ this) in
       let+ this := visit_body body this in
       Ok (decr_nest_level_ this, [])
     else visit_body body this) in
  if nest_level_ this =? 0 then check_kernel_checked this else Ok (this, []).

Definition Visit_Allocate_checked (buffer_var : VariableNode) (type_bytes : Z)
    (constant_allocation_size : Z) (body : Stmt)
    (this : GPUCodeVerifier) : checked GPUCodeVerifier :=
  let+ this := visit_body body this in
  if bool_decide (get buffer_var ∈ visited_local_buffers_ this) then
    let size := to_size_t constant_allocation_size in
    Ok (set_local_memory_per_block_ this
          (size_add (local_memory_per_block_ this)
                    (size_mul size (to_size_t type_bytes))), [])
  else if bool_decide (get buffer_var ∈ visited_shared_buffers_ this) then
    let size := to_size_t constant_allocation_size in
    Ok (set_shared_memory_per_block_ this
          (size_add (shared_memory_per_block_ this)
                    (size_mul size (to_size_t type_bytes))), [])
  else Ok (this, []).

Definition count_thread_checked (name : string) (extent : Z)
    (this : GPUCodeVerifier) : checked GPUCodeVerifier :=
  let this := set_visited_threads_ this ({[ name ]} ∪ visited_threads_ this) in
  let length := to_size_t extent in
  let this := set_thread_per_block_ this (size_mul (thread_per_block_ this) length) in
  if String.eqb name "threadIdx.x" then
    and_valid_checked (length <=? max_thread_x_ this) this
  else if String.eqb name "threadIdx.y" then
    and_valid_checked (length <=? max_thread_y_ this) this
  else if String.eqb name "threadIdx.z" then
    and_valid_checked (length <=? max_thread_z_ this) this
  else Ok (this, []).

Definition annotate_checked (node : NodeRef) (attr_key : string) (value : Expr)
    (this : GPUCodeVerifier) : checked GPUCodeVerifier :=
  if String.eqb attr_key storage_scope then
    unchecked (annotate_ node attr_key value this)
  else if String.eqb attr_key thread_extent then
    match as_IterVarNode node with
    | None => Stop null_IterVarNode
    | Some iv =>
        let var := var iv in
        match as_IntImm value with
        | None => Stop CHECK_failed
        | Some extent =>
            let name := name_hint var in
            if is_thread_name name then
              if negb (bool_decide (name ∈ visited_threads_ this)) then
                count_thread_checked name extent this
              else Ok (this, [])
            else Ok (this, [])
        end
    end
  else Ok (this, []).

Definition Visit_AttrStmt_checked (node : NodeRef) (attr_key : string)
    (value : Expr) (body : Stmt) (this : GPUCodeVerifier)
    : checked GPUCodeVerifier :=
  let+ this := annotate_checked node attr_key value this in
  visit_body body this.
End CheckedCallbacks.

Fixpoint Visit_checked (s : Stmt) (this : GPUCodeVerifier) {struct s}
    : checked GPUCodeVerifier :=
  match s with
  | ProducerConsumer is_producer body =>
      Visit_ProducerConsumer_checked Visit_checked is_producer body this
  | Allocate buffer_var type_bytes constant_allocation_size body =>
      Visit_Allocate_checked Visit_checked
        buffer_var type_bytes constant_allocation_size body this
  | AttrStmt node attr_key value body =>
      Visit_AttrStmt_checked Visit_checked node attr_key value body this
  | OtherStmt children =>
      (fix visit_children (cs : list Stmt) (this : GPUCodeVerifier)
         : checked GPUCodeVerifier :=
         match cs with
         | [] => Ok (this, [])
         | c :: cs => let+ this := Visit_checked c this in visit_children cs this
         end) children this
  end.

Fixpoint visit_children_checked (cs : list Stmt) (this : GPUCodeVerifier)
    : checked GPUCodeVerifier :=
  match cs with
  | [] => Ok (this, [])
  | c :: cs => let+ this := Visit_checked c this in visit_children_checked cs this
  end.

(** The conjunction of a list of check results. *)
Definition all_true (l : list bool) : bool := forallb (fun b => b) l.

(** *** The traversal never looks at the verdict *)

(** The same run started from verdict [b]. *)
Definition revalid (b : bool) (r : checked GPUCodeVerifier) : checked GPUCodeVerifier :=
  match r with
  | Ok (this, checks) => Ok (set_valid_ this (b && all_true checks), checks)
  | Stop f => Stop f
  end.

Definition verdict_blind (k : GPUCodeVerifier -> checked GPUCodeVerifier) : Prop :=
  forall this b, k (set_valid_ this b) = revalid b (k this).

(** ** Allocations and classifications outside every kernel region *)

(** [outside_edit s s']: [s'] is [s] with allocation nodes and storage-scope
    annotations (carrying a scope string) inserted or removed at places that
    no kernel-region marker encloses.  No rule descends below a
    [ProducerConsumer]. *)
Inductive outside_edit : Stmt -> Stmt -> Prop :=
| oe_same s :
    outside_edit s s
| oe_insert_Allocate v t n s s' :
    outside_edit s s' -> outside_edit s (Allocate v t n s')
| oe_remove_Allocate v t n s s' :
    outside_edit s s' -> outside_edit (Allocate v t n s) s'
| oe_insert_scope node scope s s' :
    outside_edit s s' ->
    outside_edit s (AttrStmt node storage_scope (StringImm scope) s')
| oe_remove_scope node scope s s' :
    outside_edit s s' ->
    outside_edit (AttrStmt node storage_scope (StringImm scope) s) s'
| oe_AttrStmt node key value s s' :
    outside_edit s s' ->
    outside_edit (AttrStmt node key value s) (AttrStmt node key value s')
| oe_OtherStmt cs cs' :
    outside_edits cs cs' -> outside_edit (OtherStmt cs) (OtherStmt cs')
with outside_edits : list Stmt -> list Stmt -> Prop :=
| oes_nil :
    outside_edits [] []
| oes_cons s s' cs cs' :
    outside_edit s s' -> outside_edits cs cs' ->
    outside_edits (s :: cs) (s' :: cs').

Scheme outside_edit_mut := Minimality for outside_edit Sort Prop
  with outside_edits_mut := Minimality for outside_edits Sort Prop.

(** Two verifiers outside every kernel that agree on all but the
    classification sets, the memory counters and the thread product. *)
Definition agree_outside (a b : GPUCodeVerifier) : Prop :=
  nest_level_ a = 0
  /\ same_outside_kernel a b
  /\ visited_threads_ b = visited_threads_ a.

Definition same_outcome (r1 r2 : result GPUCodeVerifier) : Prop :=
  match r1, r2 with
  | Ok a, Ok b => agree_outside a b
  | Stop f, Stop g => f = g
  | _, _ => False
  end.

(** A kernel within the shared limit, followed outside the kernel by a large
    allocation of the buffer the kernel classified. *)
Definition kernel_then_allocation : Stmt :=
  Block kernel_shared_4096 (Allocate buffer_A 4 1000000 Evaluate).

(** The same kernel, wrapped in a classification and a large allocation. *)
Definition kernel_in_allocation : Stmt :=
  AttrStmt (NodeVariable buffer_B) storage_scope (StringImm "local")
    (Allocate buffer_B 8 1000000 (Block kernel_shared_4096 Evaluate)).

(** ** Depth of producer nesting *)

(** The largest number of producer markers on a path from the root: how far
    [nest_level_] rises above its starting value during the visit. *)
Fixpoint producer_depth (s : Stmt) : Z :=
  match s with
  | ProducerConsumer is_producer body =>
      (if is_producer then 1 else 0) + producer_depth body
  | Allocate _ _ _ body => producer_depth body
  | AttrStmt _ _ _ body => producer_depth body
  | OtherStmt children =>
      fold_right (fun c d => Z.max (producer_depth c) d) 0 children
  end.

(** ** Relating two runs *)

(** What [Visit_(const Allocate *op)] does after the call of the base class. *)
Definition account_ (buffer_var : VariableNode) (type_bytes : Z)
    (constant_allocation_size : Z) (this : GPUCodeVerifier) : GPUCodeVerifier :=
  if bool_decide (get buffer_var ∈ visited_local_buffers_ this) then
    set_local_memory_per_block_ this
      (size_add (local_memory_per_block_ this)
                (allocation_size constant_allocation_size type_bytes))
  else if bool_decide (get buffer_var ∈ visited_shared_buffers_ this) then
    set_shared_memory_per_block_ this
      (size_add (shared_memory_per_block_ this)
                (allocation_size constant_allocation_size type_bytes))
  else this.

(** Two runs end alike: both complete, in states related by [R], or both
    stop for the same reason. *)
Definition rel_result (R : GPUCodeVerifier -> GPUCodeVerifier -> Prop)
    (r1 r2 : result GPUCodeVerifier) : Prop :=
  match r1, r2 with
  | Ok a, Ok b => R a b
  | Stop f, Stop g => f = g
  | _, _ => False
  end.

(** The three counters hold [size_t] values. *)
Definition counters_in_range (this : GPUCodeVerifier) : Prop :=
  0 <= thread_per_block_ this < SIZE_MODULUS
  /\ 0 <= local_memory_per_block_ this < SIZE_MODULUS
  /\ 0 <= shared_memory_per_block_ this < SIZE_MODULUS.

(** The largest [size_t]: what a limit of -1 becomes. *)
Definition SIZE_MAX : Z := SIZE_MODULUS - 1.

(** All six bounds are [SIZE_MAX], the counters are in range and nothing has
    been rejected. *)
Definition unbounded (this : GPUCodeVerifier) : Prop :=
  counters_in_range this
  /\ max_local_memory_per_block_ this = SIZE_MAX
  /\ max_shared_memory_per_block_ this = SIZE_MAX
  /\ max_thread_per_block_ this = SIZE_MAX
  /\ max_thread_x_ this = SIZE_MAX
  /\ max_thread_y_ this = SIZE_MAX
  /\ max_thread_z_ this = SIZE_MAX
  /\ valid_ this = true.

(** [b] is [a] under bounds at least as large, and accepts whenever [a]
    does. *)
Definition looser (a b : GPUCodeVerifier) : Prop :=
  nest_level_ b = nest_level_ a
  /\ visited_local_buffers_ b = visited_local_buffers_ a
  /\ visited_shared_buffers_ b = visited_shared_buffers_ a
  /\ visited_threads_ b = visited_threads_ a
  /\ local_memory_per_block_ b = local_memory_per_block_ a
  /\ shared_memory_per_block_ b = shared_memory_per_block_ a
  /\ thread_per_block_ b = thread_per_block_ a
  /\ max_local_memory_per_block_ a <= max_local_memory_per_block_ b
  /\ max_shared_memory_per_block_ a <= max_shared_memory_per_block_ b
  /\ max_thread_per_block_ a <= max_thread_per_block_ b
  /\ max_thread_x_ a <= max_thread_x_ b
  /\ max_thread_y_ a <= max_thread_y_ b
  /\ max_thread_z_ a <= max_thread_z_ b
  /\ (valid_ a = true -> valid_ b = true).

(** [a] and [b] differ at most in whether the null pointer is in their
    classification sets. *)
Definition same_but_null (a b : GPUCodeVerifier) : Prop :=
  same_config a b
  /\ valid_ b = valid_ a
  /\ visited_threads_ b = visited_threads_ a
  /\ thread_per_block_ b = thread_per_block_ a
  /\ local_memory_per_block_ b = local_memory_per_block_ a
  /\ shared_memory_per_block_ b = shared_memory_per_block_ a
  /\ (forall p : positive,
        Some p ∈ visited_local_buffers_ a <-> Some p ∈ visited_local_buffers_ b)
  /\ (forall p : positive,
        Some p ∈ visited_shared_buffers_ a <-> Some p ∈ visited_shared_buffers_ b).

(** A scope annotation on an iteration variable, around a kernel's
    allocation. *)
Definition kernel_scope_on_itervar : Stmt :=
  ProducerConsumer true
    (AttrStmt threadIdx_x storage_scope (StringImm "shared")
       (Allocate buffer_A 4 1024 Evaluate)).

(** ** Composing verdicts *)

(** The node is a kernel-region marker. *)
Definition is_marker (s : Stmt) : bool :=
  match s with
  | ProducerConsumer _ _ => true
  | _ => false
  end.

(** The conjunction of a sequence of results, stopping at the first that
    stopped. *)
Fixpoint and_verdicts (rs : list (result bool)) : result bool :=
  match rs with
  | [] => Ok true
  | r :: rs => let* v := r in let* w := and_verdicts rs in Ok (v && w)
  end.

(** A result with its final state transformed. *)
Definition map_result (f : GPUCodeVerifier -> GPUCodeVerifier)
    (r : result GPUCodeVerifier) : result GPUCodeVerifier :=
  match r with
  | Ok a => Ok (f a)
  | Stop e => Stop e
  end.

(** [b] is [a] with other bounds on local memory, shared memory and threads
    per block. *)
Definition same_but_block_bounds (a b : GPUCodeVerifier) : Prop :=
  b = mkGPUCodeVerifier (nest_level_ a)
        (visited_local_buffers_ a) (visited_shared_buffers_ a)
        (visited_threads_ a)
        (local_memory_per_block_ a) (shared_memory_per_block_ a)
        (thread_per_block_ a)
        (max_local_memory_per_block_ b) (max_shared_memory_per_block_ b)
        (max_thread_per_block_ b)
        (max_thread_x_ a) (max_thread_y_ a) (max_thread_z_ a)
        (valid_ a).

(** * Properties *)

Example kernel_32_8_ok : VerifyGPUCode kernel_32_8 limits_256 = Ok true.
Proof. vm_compute. reflexivity. Qed.

Example kernel_32_8_bad : VerifyGPUCode kernel_32_8 limits_255 = Ok false.
Proof. vm_compute. reflexivity. Qed.

(** ** Equations of the traversal *)

Lemma Visit_OtherStmt cs this :
  Visit (OtherStmt cs) this = visit_children cs this.
Proof. induction cs; reflexivity. Qed.

Lemma Visit_ProducerConsumer_eq p body this :
  Visit (ProducerConsumer p body) this = Visit_ProducerConsumer Visit p body this.
Proof. reflexivity. Qed.

Lemma Visit_Allocate_eq v t n body this :
  Visit (Allocate v t n body) this = Visit_Allocate Visit v t n body this.
Proof. reflexivity. Qed.

Lemma Visit_AttrStmt_eq node key value body this :
  Visit (AttrStmt node key value body) this
  = Visit_AttrStmt Visit node key value body this.
Proof. reflexivity. Qed.

Lemma bind_Ok {A B} (r : result A) (k : A -> result B) b :
  bind r k = Ok b -> exists a, r = Ok a /\ k a = Ok b.
Proof. destruct r as [a|f]; simpl; [eauto | discriminate]. Qed.

Lemma bind_Stop {A B} (r : result A) (k : A -> result B) f :
  bind r k = Stop f -> r = Stop f \/ exists a, r = Ok a /\ k a = Stop f.
Proof. destruct r as [a|g]; simpl; [eauto | intros [= ->]; auto]. Qed.

(** ** The nest level and the six bounds are left alone *)

Lemma same_config_refl a : same_config a a.
Proof. repeat split. Qed.

Lemma same_config_trans a b c :
  same_config a b -> same_config b c -> same_config a c.
Proof. unfold same_config. intuition congruence. Qed.

Lemma Reset_config a : same_config a (Reset_ a).
Proof. repeat split. Qed.

Lemma check_kernel_config a : same_config a (check_kernel_ a).
Proof. repeat split. Qed.

Lemma count_thread_config name e a : same_config a (count_thread_ name e a).
Proof.
  unfold count_thread_.
  repeat (match goal with |- context [if ?c then _ else _] => destruct c end);
    repeat split.
Qed.

Lemma annotate_config node key value a b :
  annotate_ node key value a = Ok b -> same_config a b.
Proof.
  unfold annotate_. intros H.
  repeat (match type of H with
          | context [if ?c then _ else _] => destruct c
          | context [match ?c with _ => _ end] => destruct c
          end; try discriminate);
    injection H as <-; auto using same_config_refl, count_thread_config;
    repeat split.
Qed.

Lemma Visit_config s : forall a b, Visit s a = Ok b -> same_config a b.
Proof.
  induction s as [p body IH | v t n body IH | node key value body IH | cs IH]
    using Stmt_ind; intros a b H.
  - rewrite Visit_ProducerConsumer_eq in H. unfold Visit_ProducerConsumer in H.
    apply bind_Ok in H as (c & Hc & [= <-]).
    assert (Hac : same_config a c).
    { destruct p.
      - apply bind_Ok in Hc as (d & Hd & Hc).
        apply bind_Ok in Hc as (e & He & [= <-]).
        unfold incr_nest_level_ in Hd.
        destruct (nest_level_ _ =? INT_MAX); [discriminate|]. injection Hd as <-.
        apply IH in He. unfold same_config in *; simpl in *.
        destruct (nest_level_ a =? 0); simpl in *; intuition (try congruence; lia).
      - apply IH in Hc. eapply same_config_trans; [|exact Hc].
        destruct (nest_level_ a =? 0); auto using same_config_refl, Reset_config. }
    destruct (nest_level_ c =? 0);
      eauto using same_config_trans, check_kernel_config.
  - rewrite Visit_Allocate_eq in H. unfold Visit_Allocate in H.
    apply bind_Ok in H as (c & Hc & H). apply IH in Hc.
    repeat case_bool_decide; injection H as <-; exact Hc.
  - rewrite Visit_AttrStmt_eq in H. unfold Visit_AttrStmt in H.
    apply bind_Ok in H as (c & Hc & H).
    eauto using same_config_trans, annotate_config.
  - rewrite Visit_OtherStmt in H. revert a b H.
    induction IH as [|c cs Hc _ IHcs]; simpl; intros a b H.
    + injection H as <-. apply same_config_refl.
    + apply bind_Ok in H as (d & Hd & H).
      eauto using same_config_trans.
Qed.

Lemma Visit_nest_level s a b : Visit s a = Ok b -> nest_level_ b = nest_level_ a.
Proof. intros H. apply Visit_config in H. apply H. Qed.

(** ** Kernel regions *)

Lemma set_nest_level_id this : set_nest_level_ this (nest_level_ this) = this.
Proof. destruct this; reflexivity. Qed.

Lemma set_nest_level_twice this n m :
  set_nest_level_ (set_nest_level_ this n) m = set_nest_level_ this m.
Proof. reflexivity. Qed.

(** The marker visited from a nest level below [INT_MAX]: the body is visited
    from [entered], the nest level is restored, and the three checks are made
    when it is 0. *)
Lemma Visit_ProducerConsumer_spec p body this :
  nest_level_ this <> INT_MAX ->
  Visit (ProducerConsumer p body) this
  = let* inner := Visit body (entered p this) in
    let out := set_nest_level_ inner (nest_level_ this) in
    Ok (if nest_level_ this =? 0 then check_kernel_ out else out).
Proof.
  intros Hmax. rewrite Visit_ProducerConsumer_eq.
  unfold Visit_ProducerConsumer, entered, incr_nest_level_, decr_nest_level_.
  assert (Hn : nest_level_ (if nest_level_ this =? 0 then Reset_ this else this)
               = nest_level_ this) by (destruct (_ =? 0); reflexivity).
  rewrite Hn. destruct p.
  - apply Z.eqb_neq in Hmax. rewrite Hmax. simpl.
    destruct (Visit body _) as [inner|f] eqn:E; simpl; [|reflexivity].
    apply Visit_nest_level in E. simpl in E. rewrite E.
    replace (nest_level_ this + 1 - 1) with (nest_level_ this) by lia.
    reflexivity.
  - destruct (Visit body _) as [inner|f] eqn:E; simpl; [|reflexivity].
    apply Visit_nest_level in E. rewrite Hn in E. rewrite <- E.
    rewrite set_nest_level_id. reflexivity.
Qed.

Lemma valid_check_kernel_ this :
  valid_ (check_kernel_ this)
  = valid_ this
    && (thread_per_block_ this <=? max_thread_per_block_ this)
    && (local_memory_per_block_ this <=? max_local_memory_per_block_ this)
    && (shared_memory_per_block_ this <=? max_shared_memory_per_block_ this).
Proof. reflexivity. Qed.

(** C1: when the visit of a kernel-region marker returns to nest depth 0, the
    verdict is ANDed with thread-product <= max-threads-per-block,
    local-memory counter <= max-local-memory and shared-memory counter <=
    max-shared-memory, evaluated on the counters left by the body; a marker
    visited at a deeper level adds no check.  One kernel with threadIdx.x of
    extent 32 and threadIdx.y of extent 8 is accepted under
    max_thread_per_block = 256, max_thread_x = 32, max_thread_y = 16 and
    rejected when max_thread_per_block = 255. *)
Theorem kernel_exit_checks :
  (forall is_producer body this this',
     nest_level_ this = 0 ->
     Visit (ProducerConsumer is_producer body) this = Ok this' ->
     exists inner,
       Visit body (entered is_producer this) = Ok inner
       /\ nest_level_ this' = 0
       /\ thread_per_block_ this' = thread_per_block_ inner
       /\ local_memory_per_block_ this' = local_memory_per_block_ inner
       /\ shared_memory_per_block_ this' = shared_memory_per_block_ inner
       /\ valid_ this'
          = valid_ inner
            && (thread_per_block_ inner <=? max_thread_per_block_ this)
            && (local_memory_per_block_ inner <=? max_local_memory_per_block_ this)
            && (shared_memory_per_block_ inner <=? max_shared_memory_per_block_ this))
  /\ (forall is_producer body this this',
        nest_level_ this <> 0 ->
        Visit (ProducerConsumer is_producer body) this = Ok this' ->
        exists inner,
          Visit body (entered is_producer this) = Ok inner
          /\ this' = set_nest_level_ inner (nest_level_ this))
  /\ VerifyGPUCode kernel_32_8 limits_256 = Ok true
  /\ VerifyGPUCode kernel_32_8 limits_255 = Ok false.
Proof.
  split; [|split; [|split; vm_compute; reflexivity]].
  - intros p body this this' H0 H.
    rewrite Visit_ProducerConsumer_spec in H by (rewrite H0; discriminate).
    apply bind_Ok in H as (inner & Hin & H). exists inner.
    rewrite H0 in H. simpl in H. injection H as <-.
    destruct (Visit_config _ _ _ Hin) as (_ & Hl & Hs & Ht & _).
    unfold entered in Hl, Hs, Ht. rewrite H0 in Hl, Hs, Ht.
    destruct p; simpl in Hl, Hs, Ht; rewrite valid_check_kernel_; simpl;
      rewrite Hl, Hs, Ht; auto 10.
  - intros p body this this' H0 H.
    destruct (Z.eq_dec (nest_level_ this) INT_MAX) as [Hmax|Hmax].
    + rewrite Visit_ProducerConsumer_eq in H. unfold Visit_ProducerConsumer in H.
      apply Z.eqb_neq in H0. rewrite H0 in H.
      destruct p.
      * unfold incr_nest_level_ in H. rewrite Hmax in H. discriminate.
      * apply bind_Ok in H as (inner & Hin & H). exists inner.
        unfold entered. rewrite H0. split; [exact Hin|].
        pose proof (Visit_nest_level _ _ _ Hin) as Hn.
        rewrite Hn, H0 in H. injection H as <-.
        rewrite <- Hn. symmetry. apply set_nest_level_id.
    + rewrite Visit_ProducerConsumer_spec in H by assumption.
      apply bind_Ok in H as (inner & Hin & H). exists inner.
      apply Z.eqb_neq in H0. rewrite H0 in H. injection H as <-. auto.
Qed.

Lemma kernel_exit_checks_witness :
  (exists inner,
     Visit Evaluate (entered true new_GPUCodeVerifier) = Ok inner
     /\ nest_level_ (check_kernel_ (Reset_ new_GPUCodeVerifier)) = 0
     /\ thread_per_block_ (check_kernel_ (Reset_ new_GPUCodeVerifier))
        = thread_per_block_ inner
     /\ local_memory_per_block_ (check_kernel_ (Reset_ new_GPUCodeVerifier))
        = local_memory_per_block_ inner
     /\ shared_memory_per_block_ (check_kernel_ (Reset_ new_GPUCodeVerifier))
        = shared_memory_per_block_ inner
     /\ valid_ (check_kernel_ (Reset_ new_GPUCodeVerifier))
        = valid_ inner
          && (thread_per_block_ inner <=? max_thread_per_block_ new_GPUCodeVerifier)
          && (local_memory_per_block_ inner
              <=? max_local_memory_per_block_ new_GPUCodeVerifier)
          && (shared_memory_per_block_ inner
              <=? max_shared_memory_per_block_ new_GPUCodeVerifier))
  /\ (exists inner,
        Visit Evaluate (entered true (set_nest_level_ new_GPUCodeVerifier 1)) = Ok inner
        /\ set_nest_level_ new_GPUCodeVerifier 1
           = set_nest_level_ inner
               (nest_level_ (set_nest_level_ new_GPUCodeVerifier 1))).
Proof.
  split.
  - apply (proj1 kernel_exit_checks true Evaluate new_GPUCodeVerifier
             (check_kernel_ (Reset_ new_GPUCodeVerifier))).
    + reflexivity.
    + reflexivity.
  - apply (proj1 (proj2 kernel_exit_checks) true Evaluate
             (set_nest_level_ new_GPUCodeVerifier 1)
             (set_nest_level_ new_GPUCodeVerifier 1)).
    + simpl. lia.
    + reflexivity.
Defined.

Lemma Verify_configured this stmt ml ms mt mx my mz :
  Verify this stmt ml ms mt mx my mz
  = let* this := Visit stmt (configured this ml ms mt mx my mz) in Ok (valid_ this).
Proof. reflexivity. Qed.

Lemma Reset_exact this :
  Reset_ this
  = mkGPUCodeVerifier (nest_level_ this) ∅ ∅ ∅ 0 0 1
      (max_local_memory_per_block_ this) (max_shared_memory_per_block_ this)
      (max_thread_per_block_ this)
      (max_thread_x_ this) (max_thread_y_ this) (max_thread_z_ this)
      (valid_ this).
Proof. reflexivity. Qed.

Lemma Visit_ProducerConsumer_Reset p body this :
  nest_level_ this = 0 ->
  Visit (ProducerConsumer p body) this
  = Visit (ProducerConsumer p body) (Reset_ this).
Proof.
  intros H0. rewrite !Visit_ProducerConsumer_eq. unfold Visit_ProducerConsumer.
  change (nest_level_ (Reset_ this)) with (nest_level_ this). rewrite H0.
  reflexivity.
Qed.

Lemma Reset_same_outside_kernel a b :
  same_outside_kernel a b -> Reset_ a = Reset_ b.
Proof.
  intros ((Hn & Hl & Hs & Ht & Hx & Hy & Hz) & Hv). rewrite !Reset_exact.
  congruence.
Qed.

(** C5: a kernel-region marker entered at nest depth 0 first resets the
    accountant exactly (both classification sets and the thread-name set
    empty, both memory counters 0, the thread product 1, nothing else
    touched), so its visit does not depend on the sets and counters it finds:
    nothing leaks from one top-level region into a sibling.  With a violating
    and a compliant sibling the verdict is false in either order, while the
    compliant region, visited from the state the violating one leaves (with
    the verdict set back to true), ends with product 256 and verdict true. *)
Theorem kernel_entry_reset :
  (forall this,
     Reset_ this
     = mkGPUCodeVerifier (nest_level_ this) ∅ ∅ ∅ 0 0 1
         (max_local_memory_per_block_ this) (max_shared_memory_per_block_ this)
         (max_thread_per_block_ this)
         (max_thread_x_ this) (max_thread_y_ this) (max_thread_z_ this)
         (valid_ this))
  /\ (forall is_producer body this,
        nest_level_ this = 0 ->
        Visit (ProducerConsumer is_producer body) this
        = Visit (ProducerConsumer is_producer body) (Reset_ this))
  /\ (forall is_producer body a b,
        nest_level_ a = 0 ->
        same_outside_kernel a b ->
        Visit (ProducerConsumer is_producer body) a
        = Visit (ProducerConsumer is_producer body) b)
  /\ VerifyGPUCode (Block kernel_1024 kernel_32_8) limits_256 = Ok false
  /\ VerifyGPUCode (Block kernel_32_8 kernel_1024) limits_256 = Ok false
  /\ VerifyGPUCode kernel_32_8 limits_256 = Ok true
  /\ Visit kernel_1024 start_256 = Ok after_kernel_1024
  /\ thread_per_block_ after_kernel_1024 = 1024
  /\ valid_ after_kernel_1024 = false
  /\ (exists this,
        Visit kernel_32_8 (set_valid_ after_kernel_1024 true) = Ok this
        /\ thread_per_block_ this = 256
        /\ local_memory_per_block_ this = 0
        /\ shared_memory_per_block_ this = 0
        /\ valid_ this = true).
Proof.
  split; [exact Reset_exact|].
  split; [exact Visit_ProducerConsumer_Reset|].
  split.
  - intros p body a b Ha Hab.
    rewrite (Visit_ProducerConsumer_Reset p body a Ha).
    rewrite (Visit_ProducerConsumer_Reset p body b).
    + rewrite (Reset_same_outside_kernel a b Hab). reflexivity.
    + destruct Hab as ((Hn & _) & _). congruence.
  - repeat (split; [vm_compute; reflexivity|]).
    eexists. split; [vm_compute; reflexivity|].
    repeat split; vm_compute; reflexivity.
Qed.

Lemma kernel_entry_reset_witness :
  Visit (ProducerConsumer true Evaluate) after_kernel_1024
  = Visit (ProducerConsumer true Evaluate) (Reset_ after_kernel_1024)
  /\ Visit kernel_32_8 after_kernel_1024
     = Visit kernel_32_8 (set_valid_ start_256 false).
Proof.
  split.
  - apply (proj1 (proj2 kernel_entry_reset) true Evaluate after_kernel_1024).
    vm_compute. reflexivity.
  - apply (proj1 (proj2 (proj2 kernel_entry_reset)) true).
    + vm_compute. reflexivity.
    + repeat split; vm_compute; reflexivity.
Defined.

(** ** Allocations *)

Lemma to_size_t_small x : 0 <= x < SIZE_MODULUS -> to_size_t x = x.
Proof. intros H. unfold to_size_t. apply Z.mod_small. exact H. Qed.

(** An [int32_t] element count and an [int] byte width that are not negative
    multiply without wrap-around. *)
Lemma allocation_size_exact n t :
  0 <= n <= INT_MAX -> 0 <= t <= INT_MAX -> allocation_size n t = n * t.
Proof.
  unfold allocation_size, size_mul, INT_MAX. intros Hn Ht.
  assert (HM : SIZE_MODULUS = 18446744073709551616) by reflexivity.
  rewrite (to_size_t_small n), (to_size_t_small t) by lia.
  apply to_size_t_small. nia.
Qed.

(** C4: an allocation node first visits its subtree (a stop there stops the
    node); then, with size = element count x byte width in [size_t]
    arithmetic (the plain product for a non-negative count and width), the
    size is added to the local counter if the variable is in the local set
    as the subtree left it, else to the shared counter if it is in the shared
    set, and otherwise the node is the visit of its subtree alone: an
    unclassified allocation changes no counter and no verdict.  1024 elements
    of 4 bytes classified "shared" fail under shared limit 4095 and pass under
    4096. *)
Theorem allocation_accounting :
  (forall v t n body this f,
     Visit body this = Stop f -> Visit (Allocate v t n body) this = Stop f)
  /\ (forall v t n body this mid,
        Visit body this = Ok mid ->
        get v ∈ visited_local_buffers_ mid ->
        exists fin,
          Visit (Allocate v t n body) this = Ok fin
          /\ local_memory_per_block_ fin
             = (local_memory_per_block_ mid + allocation_size n t) mod 2 ^ 64
          /\ shared_memory_per_block_ fin = shared_memory_per_block_ mid
          /\ fin = set_local_memory_per_block_ mid (local_memory_per_block_ fin))
  /\ (forall v t n body this mid,
        Visit body this = Ok mid ->
        get v ∉ visited_local_buffers_ mid ->
        get v ∈ visited_shared_buffers_ mid ->
        exists fin,
          Visit (Allocate v t n body) this = Ok fin
          /\ shared_memory_per_block_ fin
             = (shared_memory_per_block_ mid + allocation_size n t) mod 2 ^ 64
          /\ local_memory_per_block_ fin = local_memory_per_block_ mid
          /\ fin = set_shared_memory_per_block_ mid (shared_memory_per_block_ fin))
  /\ (forall v t n body this mid,
        Visit body this = Ok mid ->
        get v ∉ visited_local_buffers_ mid ->
        get v ∉ visited_shared_buffers_ mid ->
        Visit (Allocate v t n body) this = Visit body this)
  /\ (forall n t,
        0 <= n <= INT_MAX -> 0 <= t <= INT_MAX -> allocation_size n t = n * t)
  /\ VerifyGPUCode kernel_shared_4096 (shared_limit 4095) = Ok false
  /\ VerifyGPUCode kernel_shared_4096 (shared_limit 4096) = Ok true
  /\ VerifyGPUCode kernel_unclassified_4096 (shared_limit 1) = Ok true
  /\ VerifyGPUCode kernel_unclassified_4096 (local_limit 1) = Ok true
  /\ VerifyGPUCode kernel_classified_inside (shared_limit 4095) = Ok false
  /\ VerifyGPUCode kernel_classified_late (shared_limit 1) = Ok true.
Proof.
  split; [|split; [|split; [|split; [|split]]]].
  - intros v t n body this f H. rewrite Visit_Allocate_eq. unfold Visit_Allocate.
    rewrite H. reflexivity.
  - intros v t n body this mid H Hl. rewrite Visit_Allocate_eq.
    unfold Visit_Allocate. rewrite H. simpl.
    rewrite bool_decide_eq_true_2 by exact Hl.
    eexists. split; [reflexivity|]. repeat split.
  - intros v t n body this mid H Hl Hs. rewrite Visit_Allocate_eq.
    unfold Visit_Allocate. rewrite H. simpl.
    rewrite bool_decide_eq_false_2 by exact Hl.
    rewrite bool_decide_eq_true_2 by exact Hs.
    eexists. split; [reflexivity|]. repeat split.
  - intros v t n body this mid H Hl Hs. rewrite Visit_Allocate_eq.
    unfold Visit_Allocate. rewrite H. simpl.
    rewrite !bool_decide_eq_false_2 by assumption. reflexivity.
  - exact allocation_size_exact.
  - repeat split; vm_compute; reflexivity.
Qed.

Lemma allocation_accounting_witness :
  Visit (Allocate buffer_A 4 1024
           (AttrStmt NodeOther thread_extent (IntImm 1) Evaluate))
    new_GPUCodeVerifier
  = Stop null_IterVarNode
  /\ (exists fin,
        Visit (Allocate buffer_A 4 1024 Evaluate)
          (set_visited_local_buffers_ new_GPUCodeVerifier {[ get buffer_A ]})
        = Ok fin
        /\ local_memory_per_block_ fin
           = (local_memory_per_block_
                (set_visited_local_buffers_ new_GPUCodeVerifier {[ get buffer_A ]})
              + allocation_size 1024 4) mod 2 ^ 64
        /\ shared_memory_per_block_ fin
           = shared_memory_per_block_
               (set_visited_local_buffers_ new_GPUCodeVerifier {[ get buffer_A ]})
        /\ fin = set_local_memory_per_block_
                   (set_visited_local_buffers_ new_GPUCodeVerifier {[ get buffer_A ]})
                   (local_memory_per_block_ fin))
  /\ (exists fin,
        Visit (Allocate buffer_A 4 1024 Evaluate)
          (set_visited_shared_buffers_ new_GPUCodeVerifier {[ get buffer_A ]})
        = Ok fin
        /\ shared_memory_per_block_ fin
           = (shared_memory_per_block_
                (set_visited_shared_buffers_ new_GPUCodeVerifier {[ get buffer_A ]})
              + allocation_size 1024 4) mod 2 ^ 64
        /\ local_memory_per_block_ fin
           = local_memory_per_block_
               (set_visited_shared_buffers_ new_GPUCodeVerifier {[ get buffer_A ]})
        /\ fin = set_shared_memory_per_block_
                   (set_visited_shared_buffers_ new_GPUCodeVerifier {[ get buffer_A ]})
                   (shared_memory_per_block_ fin))
  /\ Visit (Allocate buffer_B 4 1024 Evaluate)
       (set_visited_shared_buffers_ new_GPUCodeVerifier {[ get buffer_A ]})
     = Visit Evaluate
         (set_visited_shared_buffers_ new_GPUCodeVerifier {[ get buffer_A ]})
  /\ allocation_size 1024 4 = 1024 * 4.
Proof.
  split; [|split; [|split; [|split]]].
  - apply (proj1 allocation_accounting). reflexivity.
  - apply (proj1 (proj2 allocation_accounting) buffer_A 4 1024 Evaluate
             (set_visited_local_buffers_ new_GPUCodeVerifier {[ get buffer_A ]})
             (set_visited_local_buffers_ new_GPUCodeVerifier {[ get buffer_A ]})).
    + reflexivity.
    + by_decide.
  - apply (proj1 (proj2 (proj2 allocation_accounting)) buffer_A 4 1024 Evaluate
             (set_visited_shared_buffers_ new_GPUCodeVerifier {[ get buffer_A ]})
             (set_visited_shared_buffers_ new_GPUCodeVerifier {[ get buffer_A ]})).
    + reflexivity.
    + by_decide.
    + by_decide.
  - apply (proj1 (proj2 (proj2 (proj2 allocation_accounting))) buffer_B 4 1024 Evaluate
             (set_visited_shared_buffers_ new_GPUCodeVerifier {[ get buffer_A ]})
             (set_visited_shared_buffers_ new_GPUCodeVerifier {[ get buffer_A ]})).
    + reflexivity.
    + by_decide.
    + by_decide.
  - apply (proj1 (proj2 (proj2 (proj2 (proj2 allocation_accounting))))).
    + vm_compute. split; discriminate.
    + vm_compute. split; discriminate.
Defined.

(** ** Thread extents *)

Lemma annotate_thread_extent node value this :
  annotate_ node thread_extent value this
  = match as_IterVarNode node with
    | None => Stop null_IterVarNode
    | Some iv =>
        match as_IntImm value with
        | None => Stop CHECK_failed
        | Some extent =>
            if is_thread_name (name_hint (var iv))
               && negb (bool_decide (name_hint (var iv) ∈ visited_threads_ this))
            then Ok (count_thread_ (name_hint (var iv)) extent this)
            else Ok this
        end
    end.
Proof.
  unfold annotate_.
  change (String.eqb thread_extent storage_scope) with false.
  rewrite String.eqb_refl.
  destruct (as_IterVarNode node) as [iv|]; [|reflexivity].
  destruct (as_IntImm value) as [e|]; [|reflexivity].
  destruct (is_thread_name _); [|reflexivity].
  destruct (negb _); reflexivity.
Qed.

Lemma count_thread_fields name e this :
  is_thread_name name = true ->
  thread_per_block_ (count_thread_ name e this)
  = (thread_per_block_ this * (e mod 2 ^ 64)) mod 2 ^ 64
  /\ valid_ (count_thread_ name e this)
     = valid_ this && (e mod 2 ^ 64 <=? thread_bound name this)
  /\ visited_threads_ (count_thread_ name e this)
     = {[ name ]} ∪ visited_threads_ this
  /\ local_memory_per_block_ (count_thread_ name e this)
     = local_memory_per_block_ this
  /\ shared_memory_per_block_ (count_thread_ name e this)
     = shared_memory_per_block_ this.
Proof.
  unfold is_thread_name, count_thread_, thread_bound. intros H.
  destruct (String.eqb name "threadIdx.x"); [repeat split|].
  destruct (String.eqb name "threadIdx.y"); [repeat split|].
  destruct (String.eqb name "threadIdx.z"); [repeat split|discriminate].
Qed.

(** Inside a producer region no reset happens, so a counted name stays
    counted. *)
Lemma annotate_visited_threads node key value a b :
  annotate_ node key value a = Ok b -> visited_threads_ a ⊆ visited_threads_ b.
Proof.
  unfold annotate_, count_thread_. intros H.
  repeat (match type of H with
          | context [if ?c then _ else _] => destruct c
          | context [match ?c with _ => _ end] => destruct c
          end; try discriminate);
    injection H as <-; simpl; set_solver.
Qed.

Lemma Visit_visited_threads s :
  forall a b, 0 < nest_level_ a -> Visit s a = Ok b ->
              visited_threads_ a ⊆ visited_threads_ b.
Proof.
  induction s as [p body IH | v t n body IH | node key value body IH | cs IH]
    using Stmt_ind; intros a b Hpos H.
  - destruct (Z.eq_dec (nest_level_ a) INT_MAX) as [Hmax|Hmax].
    + rewrite Visit_ProducerConsumer_eq in H. unfold Visit_ProducerConsumer in H.
      assert (H0 : (nest_level_ a =? 0) = false) by (apply Z.eqb_neq; lia).
      rewrite H0 in H. destruct p.
      * unfold incr_nest_level_ in H. rewrite Hmax in H. discriminate.
      * apply bind_Ok in H as (c & Hc & H).
        rewrite (Visit_nest_level _ _ _ Hc), H0 in H. injection H as <-. eauto.
    + rewrite Visit_ProducerConsumer_spec in H by assumption.
      apply bind_Ok in H as (c & Hc & H).
      assert (H0 : (nest_level_ a =? 0) = false) by (apply Z.eqb_neq; lia).
      rewrite H0 in H. injection H as <-. simpl.
      unfold entered in Hc. rewrite H0 in Hc.
      destruct p; apply IH in Hc; simpl in *; auto; lia.
  - rewrite Visit_Allocate_eq in H. unfold Visit_Allocate in H.
    apply bind_Ok in H as (c & Hc & H). apply IH in Hc; [|assumption].
    repeat case_bool_decide; injection H as <-; exact Hc.
  - rewrite Visit_AttrStmt_eq in H. unfold Visit_AttrStmt in H.
    apply bind_Ok in H as (c & Hc & H).
    pose proof (annotate_visited_threads _ _ _ _ _ Hc) as Hsub.
    apply annotate_config in Hc. destruct Hc as (Hn & _).
    apply IH in H; [|lia]. set_solver.
  - rewrite Visit_OtherStmt in H. revert a b Hpos H.
    induction IH as [|c cs Hc _ IHcs]; simpl; intros a b Hpos H.
    + injection H as <-. reflexivity.
    + apply bind_Ok in H as (d & Hd & H).
      pose proof (Visit_nest_level _ _ _ Hd) as Hn.
      apply Hc in Hd; [|assumption]. apply IHcs in H; [|lia]. set_solver.
Qed.

(** Names other than the three thread dimensions are not counted. *)
Example blockIdx_not_counted this :
  annotate_ blockIdx_x thread_extent (IntImm 65536) this = Ok this.
Proof. rewrite annotate_thread_extent. reflexivity. Qed.

Example threadIdx_z_counted :
  VerifyGPUCode
    (ProducerConsumer true (AttrStmt threadIdx_z thread_extent (IntImm 65) Evaluate))
    (<["max_thread_z" := IntImm 64]> ∅) = Ok false.
Proof. vm_compute. reflexivity. Qed.

(** C3: within one kernel region each of threadIdx.x, threadIdx.y,
    threadIdx.z is counted at most once.  The first thread-extent annotation
    of a name marks it counted, multiplies its extent into the thread product
    and ANDs extent <= the bound of its dimension into the verdict; an
    annotation of a name already counted is the visit of its subtree alone,
    whatever its extent; and a counted name stays counted for the rest of
    the region.  [threadIdx.x] of extent 16 declared twice passes under
    max_thread_x = 16 and max_thread_per_block = 16, and so does extent 16
    followed by extent 64. *)
Theorem thread_extent_counted_once :
  (forall iv e body this,
     is_thread_name (name_hint (var iv)) = true ->
     name_hint (var iv) ∉ visited_threads_ this ->
     exists this1,
       Visit (AttrStmt (NodeIterVar iv) thread_extent (IntImm e) body) this
       = Visit body this1
       /\ visited_threads_ this1 = {[ name_hint (var iv) ]} ∪ visited_threads_ this
       /\ thread_per_block_ this1
          = (thread_per_block_ this * (e mod 2 ^ 64)) mod 2 ^ 64
       /\ valid_ this1
          = valid_ this && (e mod 2 ^ 64 <=? thread_bound (name_hint (var iv)) this))
  /\ (forall iv e body this,
        name_hint (var iv) ∈ visited_threads_ this ->
        Visit (AttrStmt (NodeIterVar iv) thread_extent (IntImm e) body) this
        = Visit body this)
  /\ (forall s this this',
        0 < nest_level_ this ->
        Visit s this = Ok this' ->
        visited_threads_ this ⊆ visited_threads_ this')
  /\ VerifyGPUCode kernel_x16_twice limits_x16 = Ok true
  /\ VerifyGPUCode kernel_x16_then_x64 limits_x16 = Ok true.
Proof.
  split; [|split; [|split; [exact Visit_visited_threads|]]].
  - intros iv e body this Hname Hnew.
    exists (count_thread_ (name_hint (var iv)) e this). split.
    + rewrite Visit_AttrStmt_eq. unfold Visit_AttrStmt.
      rewrite annotate_thread_extent. simpl. rewrite Hname.
      rewrite bool_decide_eq_false_2 by exact Hnew. reflexivity.
    + destruct (count_thread_fields (name_hint (var iv)) e this Hname)
        as (Ht & Hv & Hs & _). auto.
  - intros iv e body this Hold. rewrite Visit_AttrStmt_eq. unfold Visit_AttrStmt.
    rewrite annotate_thread_extent. simpl.
    rewrite bool_decide_eq_true_2 by exact Hold.
    rewrite andb_false_r. reflexivity.
  - split; vm_compute; reflexivity.
Qed.

Lemma thread_extent_counted_once_witness :
  (exists this1,
     Visit (AttrStmt threadIdx_x thread_extent (IntImm 16) Evaluate) new_GPUCodeVerifier
     = Visit Evaluate this1
     /\ visited_threads_ this1
        = {[ "threadIdx.x" ]} ∪ visited_threads_ new_GPUCodeVerifier
     /\ thread_per_block_ this1
        = (thread_per_block_ new_GPUCodeVerifier * (16 mod 2 ^ 64)) mod 2 ^ 64
     /\ valid_ this1
        = valid_ new_GPUCodeVerifier
          && (16 mod 2 ^ 64 <=? thread_bound "threadIdx.x" new_GPUCodeVerifier))
  /\ Visit (AttrStmt threadIdx_x' thread_extent (IntImm 64) Evaluate)
       (set_visited_threads_ new_GPUCodeVerifier {[ "threadIdx.x" ]})
     = Visit Evaluate (set_visited_threads_ new_GPUCodeVerifier {[ "threadIdx.x" ]})
  /\ visited_threads_ (set_nest_level_ new_GPUCodeVerifier 1)
     ⊆ visited_threads_ (set_nest_level_ new_GPUCodeVerifier 1).
Proof.
  split; [|split].
  - apply (proj1 thread_extent_counted_once
             (mkIterVarNode (mkVariable 1 "threadIdx.x") "threadIdx.x")
             16 Evaluate new_GPUCodeVerifier).
    + reflexivity.
    + by_decide.
  - apply (proj1 (proj2 thread_extent_counted_once)
             (mkIterVarNode (mkVariable 5 "threadIdx.x") "threadIdx.x")
             64 Evaluate).
    by_decide.
  - apply (proj1 (proj2 (proj2 thread_extent_counted_once)) Evaluate).
    + simpl. lia.
    + reflexivity.
Defined.

(** ** Storage scopes *)

Lemma annotate_storage_scope node value this :
  annotate_ node storage_scope value this
  = match as_StringImm value with
    | None => Stop null_StringImm
    | Some scope =>
        if String.eqb scope "local" then
          Ok (set_visited_local_buffers_ this
                ({[ as_Variable node ]} ∪ visited_local_buffers_ this))
        else if String.eqb scope "shared" then
          Ok (set_visited_shared_buffers_ this
                ({[ as_Variable node ]} ∪ visited_shared_buffers_ this))
        else Ok this
    end.
Proof. unfold annotate_. rewrite String.eqb_refl. reflexivity. Qed.

Lemma annotate_not_null_StringImm node key value this :
  scope_is_string node key value = true ->
  annotate_ node key value this <> Stop null_StringImm.
Proof.
  unfold scope_is_string, annotate_. intros H.
  repeat (match goal with
          | |- context [if ?c then _ else _] => destruct c
          | |- context [match ?c with _ => _ end] => destruct c
          end; try discriminate).
Qed.

Lemma Visit_not_null_StringImm s :
  every_annotation scope_is_string s = true ->
  forall this, Visit s this <> Stop null_StringImm.
Proof.
  induction s as [p body IH | v t n body IH | node key value body IH | cs IH]
    using Stmt_ind; intros Hs this H; simpl in Hs.
  - rewrite Visit_ProducerConsumer_eq in H. unfold Visit_ProducerConsumer in H.
    apply bind_Stop in H as [H | (a & _ & H)]; [|discriminate].
    destruct p.
    + apply bind_Stop in H as [H | (a & _ & H)].
      * unfold incr_nest_level_ in H. destruct (_ =? INT_MAX); discriminate.
      * apply bind_Stop in H as [H | (b & _ & H)]; [|discriminate].
        exact (IH Hs _ H).
    + exact (IH Hs _ H).
  - rewrite Visit_Allocate_eq in H. unfold Visit_Allocate in H.
    apply bind_Stop in H as [H | (a & _ & H)]; [exact (IH Hs _ H)|].
    repeat case_bool_decide; discriminate.
  - rewrite Visit_AttrStmt_eq in H. unfold Visit_AttrStmt in H.
    apply andb_true_iff in Hs as (Hk & Hs).
    apply bind_Stop in H as [H | (a & _ & H)].
    + exact (annotate_not_null_StringImm _ _ _ _ Hk H).
    + exact (IH Hs _ H).
  - rewrite Visit_OtherStmt in H. revert this H.
    induction IH as [|c cs Hc _ IHcs]; simpl in *; intros this H; [discriminate|].
    apply andb_true_iff in Hs as (Hc' & Hs).
    apply bind_Stop in H as [H | (a & _ & H)].
    + exact (Hc Hc' _ H).
    + exact (IHcs Hs _ H).
Qed.

(** C10: the storage-scope branch reads the annotation's value as a string
    constant with no guard.  On a string constant the classification step
    always completes ("local" and "shared" insert the target into their set,
    any other scope changes nothing), and a tree whose storage-scope
    annotations all carry string constants never stops at that read.  A
    storage-scope annotation whose value is not a string constant stops the
    visit at the unchecked dereference: this is neither the guarded internal
    error nor a verdict. *)
Theorem storage_scope_unguarded :
  (forall node scope this,
     exists this1,
       annotate_ node storage_scope (StringImm scope) this = Ok this1
       /\ this1
          = if String.eqb scope "local" then
              set_visited_local_buffers_ this
                ({[ as_Variable node ]} ∪ visited_local_buffers_ this)
            else if String.eqb scope "shared" then
              set_visited_shared_buffers_ this
                ({[ as_Variable node ]} ∪ visited_shared_buffers_ this)
            else this)
  /\ (forall s this,
        every_annotation scope_is_string s = true ->
        Visit s this <> Stop null_StringImm)
  /\ (forall node value body this,
        as_StringImm value = None ->
        Visit (AttrStmt node storage_scope value body) this = Stop null_StringImm)
  /\ is_unchecked_dereference null_StringImm = true
  /\ is_internal_error null_StringImm = false
  /\ VerifyGPUCode scope_not_a_string ∅ = Stop null_StringImm.
Proof.
  split; [|split; [|split; [|repeat split]]].
  - intros node scope this. rewrite annotate_storage_scope. simpl.
    destruct (String.eqb scope "local"); [eauto|].
    destruct (String.eqb scope "shared"); eauto.
  - intros s this Hs. apply Visit_not_null_StringImm. exact Hs.
  - intros node value body this Hv. rewrite Visit_AttrStmt_eq.
    unfold Visit_AttrStmt. rewrite annotate_storage_scope, Hv. reflexivity.
Qed.

Lemma storage_scope_unguarded_witness :
  Visit kernel_shared_4096 new_GPUCodeVerifier <> Stop null_StringImm
  /\ Visit (AttrStmt (NodeVariable buffer_A) storage_scope (IntImm 1) Evaluate)
       new_GPUCodeVerifier
     = Stop null_StringImm.
Proof.
  split.
  - apply (proj1 (proj2 storage_scope_unguarded)). reflexivity.
  - apply (proj1 (proj2 (proj2 storage_scope_unguarded))). reflexivity.
Defined.

(** ** Malformed input *)

Lemma annotate_untyped node key value this :
  thread_extent_is_typed node key value = false ->
  exists f, annotate_ node key value this = Stop f.
Proof.
  unfold thread_extent_is_typed. intros H.
  destruct (String.eqb key thread_extent) eqn:Hk; [|discriminate].
  apply String.eqb_eq in Hk as ->. rewrite annotate_thread_extent.
  destruct (as_IterVarNode node); [|eauto].
  destruct (as_IntImm value); [discriminate|eauto].
Qed.

Lemma Visit_untyped s :
  every_annotation thread_extent_is_typed s = false ->
  forall this, exists f, Visit s this = Stop f.
Proof.
  induction s as [p body IH | v t n body IH | node key value body IH | cs IH]
    using Stmt_ind; intros Hs this; simpl in Hs.
  - rewrite Visit_ProducerConsumer_eq. unfold Visit_ProducerConsumer.
    destruct p.
    + destruct (incr_nest_level_ _) as [a|f]; simpl; [|eauto].
      destruct (IH Hs a) as (f & ->). simpl. eauto.
    + destruct (IH Hs (if nest_level_ this =? 0 then Reset_ this else this))
        as (f & ->). simpl. eauto.
  - rewrite Visit_Allocate_eq. unfold Visit_Allocate.
    destruct (IH Hs this) as (f & ->). simpl. eauto.
  - rewrite Visit_AttrStmt_eq. unfold Visit_AttrStmt.
    apply andb_false_iff in Hs as [Hk | Hs].
    + destruct (annotate_untyped _ _ _ this Hk) as (f & ->). simpl. eauto.
    + destruct (annotate_ node key value this) as [a|f]; simpl; eauto.
  - rewrite Visit_OtherStmt. revert this.
    induction IH as [|c cs Hc _ IHcs]; simpl in *; intros this; [discriminate|].
    apply andb_false_iff in Hs as [Hc' | Hs].
    + destruct (Hc Hc' this) as (f & ->). simpl. eauto.
    + destruct (Visit c this) as [a|f]; simpl; eauto.
Qed.

Lemma get_int_Stop constraints key def f :
  get_int constraints key def = Stop f -> f = null_IntImm.
Proof.
  unfold get_int. destruct (constraints !! key) as [e|]; [|discriminate].
  destruct (as_IntImm e); [discriminate|]. congruence.
Qed.

Lemma VerifyGPUCode_limit_not_constant stmt (constraints : gmap string Expr) key e :
  key ∈ limit_names ->
  constraints !! key = Some e ->
  as_IntImm e = None ->
  VerifyGPUCode stmt constraints = Stop null_IntImm.
Proof.
  intros Hkey He Hv.
  assert (Hbad : get_int constraints key INT64_MAX = Stop null_IntImm)
    by (unfold get_int; rewrite He, Hv; reflexivity).
  unfold VerifyGPUCode, limit_names in *.
  repeat match goal with
         | |- context [get_int constraints ?k INT64_MAX] =>
             let E := fresh "E" in
             destruct (get_int constraints k INT64_MAX) as [?|?] eqn:E; simpl;
             [|apply get_int_Stop in E; congruence]
         end.
  repeat (apply elem_of_cons in Hkey as [-> | Hkey]; [congruence|]).
  apply elem_of_nil in Hkey. contradiction.
Qed.

(** C6 as stated fails: a thread-extent annotation whose target is not an
    iteration variable, and a limit that is not a constant integer, stop the
    verification at an unguarded dereference, which is not the internal
    error of a failed check. *)
Lemma malformed_input_counterexample :
  VerifyGPUCode kernel_untyped_target ∅ = Stop null_IterVarNode
  /\ is_internal_error null_IterVarNode = false
  /\ VerifyGPUCode kernel_32_8 limit_not_constant = Stop null_IntImm
  /\ is_internal_error null_IntImm = false.
Proof. repeat split; vm_compute; reflexivity. Qed.

(** C6 (amended): a thread-extent annotation on an iteration variable whose
    value is not a constant integer aborts the verification with the
    internal error of [CHECK(extent)].  A thread-extent annotation whose
    target is not an iteration variable, and a configured limit (one of the
    six names) whose value is not a constant integer, are read through a
    downcast that no check guards: the verification stops there.  In every
    case the malformed input is never ignored and never folded into the
    verdict: a tree holding a malformed thread-extent annotation anywhere
    yields no verdict at all. *)
Theorem malformed_input_stops :
  (forall iv value body this,
     as_IntImm value = None ->
     Visit (AttrStmt (NodeIterVar iv) thread_extent value body) this
     = Stop CHECK_failed)
  /\ is_internal_error CHECK_failed = true
  /\ (forall node value body this,
        as_IterVarNode node = None ->
        Visit (AttrStmt node thread_extent value body) this = Stop null_IterVarNode)
  /\ (forall stmt (constraints : gmap string Expr) key e,
        key ∈ limit_names ->
        constraints !! key = Some e ->
        as_IntImm e = None ->
        VerifyGPUCode stmt constraints = Stop null_IntImm)
  /\ is_unchecked_dereference null_IterVarNode = true
  /\ is_unchecked_dereference null_IntImm = true
  /\ (forall s this ml ms mt mx my mz,
        every_annotation thread_extent_is_typed s = false ->
        exists f, Verify this s ml ms mt mx my mz = Stop f)
  /\ VerifyGPUCode kernel_symbolic_extent ∅ = Stop CHECK_failed.
Proof.
  split; [|split; [reflexivity|split; [|split; [|split; [|split; [|split]]]]]].
  - intros iv value body this Hv. rewrite Visit_AttrStmt_eq. unfold Visit_AttrStmt.
    rewrite annotate_thread_extent. simpl. rewrite Hv. reflexivity.
  - intros node value body this Hn. rewrite Visit_AttrStmt_eq. unfold Visit_AttrStmt.
    rewrite annotate_thread_extent, Hn. reflexivity.
  - exact VerifyGPUCode_limit_not_constant.
  - reflexivity.
  - reflexivity.
  - intros s this ml ms mt mx my mz Hs. rewrite Verify_configured.
    destruct (Visit_untyped s Hs (configured this ml ms mt mx my mz)) as (f & ->).
    simpl. eauto.
  - vm_compute. reflexivity.
Qed.

Lemma malformed_input_stops_witness :
  Visit (AttrStmt threadIdx_x thread_extent OtherExpr Evaluate) new_GPUCodeVerifier
  = Stop CHECK_failed
  /\ Visit (AttrStmt NodeOther thread_extent (IntImm 32) Evaluate) new_GPUCodeVerifier
     = Stop null_IterVarNode
  /\ VerifyGPUCode kernel_32_8 limit_not_constant = Stop null_IntImm
  /\ (exists f, Verify new_GPUCodeVerifier kernel_untyped_target 0 0 0 0 0 0 = Stop f).
Proof.
  split; [|split; [|split]].
  - apply (proj1 malformed_input_stops
             (mkIterVarNode (mkVariable 1 "threadIdx.x") "threadIdx.x")).
    reflexivity.
  - apply (proj1 (proj2 (proj2 malformed_input_stops))). reflexivity.
  - apply (proj1 (proj2 (proj2 (proj2 malformed_input_stops)))
             kernel_32_8 limit_not_constant "max_thread_x" (StringImm "32")).
    + by_decide.
    + reflexivity.
    + reflexivity.
  - apply (proj1 (proj2 (proj2 (proj2 (proj2 (proj2 (proj2 malformed_input_stops))))))).
    reflexivity.
Defined.

(** ** Absent limits *)

Lemma get_int_insert_default (constraints : gmap string Expr) key k :
  constraints !! key = None ->
  get_int (<[key := IntImm INT64_MAX]> constraints) k INT64_MAX
  = get_int constraints k INT64_MAX.
Proof.
  intros Hnone. unfold get_int.
  destruct (decide (key = k)) as [<-|Hne].
  - rewrite lookup_insert_eq, Hnone. reflexivity.
  - rewrite lookup_insert_ne by exact Hne. reflexivity.
Qed.

(** C7: omitting a name (in particular any of the six limit names) from the
    configuration gives the same result as including it with the largest
    64-bit signed integer: an absent entry is resolved to INT64_MAX. *)
Theorem absent_limit_is_INT64_MAX :
  forall stmt (constraints : gmap string Expr) key,
    constraints !! key = None ->
    get_int constraints key INT64_MAX = Ok INT64_MAX
    /\ INT64_MAX = 9223372036854775807
    /\ VerifyGPUCode stmt (<[key := IntImm INT64_MAX]> constraints)
       = VerifyGPUCode stmt constraints.
Proof.
  intros stmt constraints key Hnone. split; [|split].
  - unfold get_int. rewrite Hnone. reflexivity.
  - reflexivity.
  - unfold VerifyGPUCode. rewrite !get_int_insert_default by exact Hnone.
    reflexivity.
Qed.

Lemma absent_limit_is_INT64_MAX_witness :
  get_int limits_256 "max_thread_z" INT64_MAX = Ok INT64_MAX
  /\ INT64_MAX = 9223372036854775807
  /\ VerifyGPUCode kernel_32_8 (<["max_thread_z" := IntImm INT64_MAX]> limits_256)
     = VerifyGPUCode kernel_32_8 limits_256.
Proof.
  apply (absent_limit_is_INT64_MAX kernel_32_8 limits_256 "max_thread_z").
  reflexivity.
Defined.

(** ** Trees without a kernel region *)

Lemma annotate_well_formed node key value this :
  annotation_well_formed node key value = true ->
  exists this1, annotate_ node key value this = Ok this1.
Proof.
  unfold annotation_well_formed, scope_is_string, thread_extent_is_typed, annotate_.
  intros H. apply andb_true_iff in H as (Hs & Ht).
  destruct (String.eqb key storage_scope).
  - destruct (as_StringImm value); [|discriminate].
    repeat (match goal with |- context [if ?c then _ else _] => destruct c end);
      eauto.
  - destruct (String.eqb key thread_extent); [|eauto].
    destruct (as_IterVarNode node); [|discriminate].
    destruct (as_IntImm value); [|discriminate].
    repeat (match goal with |- context [if ?c then _ else _] => destruct c end);
      eauto.
Qed.

Lemma bool_decide_insert_same (n : string) (V : gset string) :
  bool_decide (n ∈ {[ n ]} ∪ V) = true.
Proof. apply bool_decide_eq_true_2. by_membership. Qed.

Lemma bool_decide_insert_other (n m : string) (V : gset string) :
  n <> m -> bool_decide (m ∈ {[ n ]} ∪ V) = bool_decide (m ∈ V).
Proof. intros Hne. apply bool_decide_ext. by_membership. Qed.

Lemma first_extents_within_app mx my mz l1 :
  forall seen l2,
    first_extents_within mx my mz seen (l1 ++ l2)
    = first_extents_within mx my mz seen l1
      && first_extents_within mx my mz (declared l1 ∪ seen) l2.
Proof.
  induction l1 as [|[n e] l1 IH]; intros seen l2; simpl.
  - f_equal. unfold declared. simpl. by_membership.
  - case_bool_decide as Hn.
    + rewrite IH. do 2 f_equal. unfold declared. simpl. by_membership.
    + rewrite IH, andb_assoc. do 2 f_equal. unfold declared. simpl. by_membership.
Qed.

Lemma first_within_cons_same bound n e l :
  first_within bound n ((n, e) :: l) = (to_size_t e <=? bound).
Proof. unfold first_within. simpl. rewrite String.eqb_refl. reflexivity. Qed.

Lemma first_within_cons_other bound n m e l :
  n <> m -> first_within bound m ((n, e) :: l) = first_within bound m l.
Proof.
  intros Hne. unfold first_within. simpl.
  apply String.eqb_neq in Hne. rewrite Hne. reflexivity.
Qed.

(** Scanning with the names seen so far is checking the first declaration
    of each of the three names not seen yet. *)
Lemma first_extents_within_first mx my mz l :
  Forall (fun d => is_thread_name (fst d) = true) l ->
  forall seen,
    first_extents_within mx my mz seen l
    = (bool_decide ("threadIdx.x" ∈ seen) || first_within mx "threadIdx.x" l)
      && (bool_decide ("threadIdx.y" ∈ seen) || first_within my "threadIdx.y" l)
      && (bool_decide ("threadIdx.z" ∈ seen) || first_within mz "threadIdx.z" l).
Proof.
  induction 1 as [|[n e] l Hn _ IH]; intros seen.
  - unfold first_within. simpl. rewrite !orb_true_r. reflexivity.
  - simpl in Hn. unfold is_thread_name in Hn.
    apply orb_true_iff in Hn as [Hn | Hn]; [apply orb_true_iff in Hn as [Hn | Hn]|];
      apply String.eqb_eq in Hn; subst n;
      change (first_extents_within mx my mz seen ((?n, e) :: l))
        with (if bool_decide (n ∈ seen) then first_extents_within mx my mz seen l
              else (to_size_t e <=? dimension_bound mx my mz n)
                   && first_extents_within mx my mz ({[ n ]} ∪ seen) l);
      rewrite !IH, first_within_cons_same, !first_within_cons_other by discriminate;
      rewrite bool_decide_insert_same, !bool_decide_insert_other by discriminate;
      unfold dimension_bound; simpl (String.eqb _ _);
      cbv iota;
      generalize (bool_decide ("threadIdx.x" ∈ seen))
                 (bool_decide ("threadIdx.y" ∈ seen))
                 (bool_decide ("threadIdx.z" ∈ seen))
                 (first_within mx "threadIdx.x" l)
                 (first_within my "threadIdx.y" l)
                 (first_within mz "threadIdx.z" l);
      intros bx by' bz fx fy fz;
      match goal with
      | |- context [to_size_t e <=? ?b] => generalize (to_size_t e <=? b)
      end;
      intros c; destruct bx, by', bz, fx, fy, fz, c; reflexivity.
Qed.

Lemma thread_extent_of_names node key value :
  Forall (fun d => is_thread_name (fst d) = true) (thread_extent_of node key value).
Proof.
  unfold thread_extent_of.
  destruct (String.eqb key thread_extent); [|constructor].
  destruct (as_IterVarNode node) as [iv|]; [|constructor].
  destruct (as_IntImm value) as [e|]; [|constructor].
  destruct (is_thread_name _) eqn:Hn; constructor; [exact Hn|constructor].
Qed.

Lemma thread_extents_names s :
  Forall (fun d => is_thread_name (fst d) = true) (thread_extents s).
Proof.
  induction s as [p body IH | v t n body IH | node key value body IH | cs IH]
    using Stmt_ind; simpl; try assumption.
  - apply Forall_app. split; [apply thread_extent_of_names|exact IH].
  - induction IH as [|c cs Hc _ IHcs]; simpl; [constructor|].
    apply Forall_app. split; assumption.
Qed.

Lemma count_thread_dimension name e this :
  is_thread_name name = true ->
  valid_ (count_thread_ name e this)
  = valid_ this
    && (to_size_t e
        <=? dimension_bound (max_thread_x_ this) (max_thread_y_ this)
              (max_thread_z_ this) name)
  /\ visited_threads_ (count_thread_ name e this) = {[ name ]} ∪ visited_threads_ this.
Proof.
  unfold is_thread_name, count_thread_, dimension_bound. intros H.
  destruct (String.eqb name "threadIdx.x"); [split; reflexivity|].
  destruct (String.eqb name "threadIdx.y"); [split; reflexivity|].
  destruct (String.eqb name "threadIdx.z"); [split; reflexivity|discriminate].
Qed.

(** One well-formed annotation: the verdict is ANDed with the scan of what
    it declares, and the names it declares are seen from then on. *)
Lemma annotate_first_extents node key value this :
  annotation_well_formed node key value = true ->
  exists this1,
    annotate_ node key value this = Ok this1
    /\ valid_ this1
       = valid_ this
         && first_extents_within (max_thread_x_ this) (max_thread_y_ this)
              (max_thread_z_ this) (visited_threads_ this)
              (thread_extent_of node key value)
    /\ visited_threads_ this1
       = declared (thread_extent_of node key value) ∪ visited_threads_ this.
Proof.
  intros Hwf. unfold thread_extent_of.
  destruct (String.eqb key thread_extent) eqn:Ht.
  - apply String.eqb_eq in Ht as ->.
    unfold annotation_well_formed, thread_extent_is_typed in Hwf.
    rewrite String.eqb_refl in Hwf. apply andb_true_iff in Hwf as (_ & Hwf).
    rewrite annotate_thread_extent.
    destruct (as_IterVarNode node) as [iv|]; [|discriminate].
    destruct (as_IntImm value) as [e|]; [|discriminate].
    destruct (is_thread_name (name_hint (var iv))) eqn:Hn; simpl.
    + case_bool_decide as Hs; simpl.
      * exists this. split; [reflexivity|]. rewrite andb_true_r.
        split; [reflexivity|]. unfold declared. simpl. by_membership.
      * exists (count_thread_ (name_hint (var iv)) e this).
        split; [reflexivity|].
        destruct (count_thread_dimension (name_hint (var iv)) e this Hn)
          as (Hv & Hs').
        rewrite Hv, Hs', andb_true_r. split; [reflexivity|].
        unfold declared. simpl. by_membership.
    + exists this. split; [reflexivity|]. rewrite andb_true_r.
      split; [reflexivity|]. unfold declared. simpl. by_membership.
  - destruct (annotate_well_formed node key value this Hwf) as (this1 & H1).
    exists this1. split; [exact H1|]. simpl. rewrite andb_true_r.
    unfold annotate_ in H1. rewrite Ht in H1.
    assert (Hd : declared [] ∪ visited_threads_ this = visited_threads_ this)
      by (unfold declared; simpl; by_membership).
    rewrite Hd.
    repeat (match type of H1 with
            | context [if ?c then _ else _] => destruct c
            | context [match ?c with _ => _ end] => destruct c
            end; try discriminate);
      injection H1 as <-; split; reflexivity.
Qed.

(** A well-formed tree without a marker: the verdict is ANDed with the scan
    of its declarations, from the names already counted. *)
Lemma Visit_first_extents s :
  no_kernel_marker s = true ->
  every_annotation annotation_well_formed s = true ->
  forall this,
    exists this',
      Visit s this = Ok this'
      /\ valid_ this'
         = valid_ this
           && first_extents_within (max_thread_x_ this) (max_thread_y_ this)
                (max_thread_z_ this) (visited_threads_ this) (thread_extents s)
      /\ visited_threads_ this' = declared (thread_extents s) ∪ visited_threads_ this.
Proof.
  induction s as [p body IH | v t n body IH | node key value body IH | cs IH]
    using Stmt_ind; intros Hk Hwf this; simpl in Hk, Hwf; simpl thread_extents.
  - discriminate.
  - rewrite Visit_Allocate_eq. unfold Visit_Allocate.
    destruct (IH Hk Hwf this) as (mid & -> & Hv & Hs). simpl.
    repeat case_bool_decide; eexists; (split; [reflexivity|]); simpl; auto.
  - rewrite Visit_AttrStmt_eq. unfold Visit_AttrStmt.
    apply andb_true_iff in Hwf as (Hwf1 & Hwf).
    destruct (annotate_first_extents node key value this Hwf1)
      as (this1 & H1 & Hv1 & Hs1).
    rewrite H1. simpl.
    destruct (annotate_config _ _ _ _ _ H1) as (_ & _ & _ & _ & Hx & Hy & Hz).
    destruct (IH Hk Hwf this1) as (this' & H' & Hv' & Hs').
    exists this'. split; [exact H'|].
    rewrite first_extents_within_app, Hv', Hv1, Hs', Hs1, Hx, Hy, Hz, andb_assoc.
    split; [reflexivity|]. unfold declared. rewrite map_app, list_to_set_app_L.
    by_membership.
  - rewrite Visit_OtherStmt. revert this.
    induction IH as [|c cs Hc _ IHcs]; simpl in *; intros this.
    + exists this. split; [reflexivity|]. rewrite andb_true_r.
      split; [reflexivity|]. unfold declared. simpl. by_membership.
    + apply andb_true_iff in Hk as (Hk1 & Hk).
      apply andb_true_iff in Hwf as (Hwf1 & Hwf).
      destruct (Hc Hk1 Hwf1 this) as (mid & Hmid & Hv & Hs). rewrite Hmid. simpl.
      destruct (Visit_config _ _ _ Hmid) as (_ & _ & _ & _ & Hx & Hy & Hz).
      destruct (IHcs Hk Hwf mid) as (this' & H' & Hv' & Hs').
      exists this'. split; [exact H'|].
      rewrite first_extents_within_app, Hv', Hv, Hs', Hs, Hx, Hy, Hz, andb_assoc.
      split; [reflexivity|]. unfold declared. rewrite map_app, list_to_set_app_L.
      by_membership.
Qed.

(** C2 as stated fails: a tree without any kernel-region marker is rejected
    when a thread-extent annotation exceeds the bound of its dimension. *)
Lemma no_kernel_counterexample :
  no_kernel_marker x64_outside_kernel = true
  /\ VerifyGPUCode x64_outside_kernel limit_x32 = Ok false.
Proof. split; vm_compute; reflexivity. Qed.

(** C2 (amended): for every well-formed statement tree without a
    kernel-region marker, verify returns the conjunction of three checks,
    one for each of threadIdx.x, threadIdx.y and threadIdx.z: the first
    thread-extent annotation of that name in visiting order, if there is one,
    has its extent within the bound of its dimension.  So it returns true
    exactly when these first extents are within their bounds (in particular
    when the tree declares none), whatever later annotations of the same
    names, storage-scope annotations and allocation nodes the tree contains
    and whatever the bounds on local memory, shared memory and threads per
    block are. *)
Theorem no_kernel_verdict :
  forall s ml ms mt mx my mz,
    no_kernel_marker s = true ->
    every_annotation annotation_well_formed s = true ->
    Verify new_GPUCodeVerifier s ml ms mt mx my mz
    = Ok (first_within (to_size_t mx) "threadIdx.x" (thread_extents s)
          && first_within (to_size_t my) "threadIdx.y" (thread_extents s)
          && first_within (to_size_t mz) "threadIdx.z" (thread_extents s)).
Proof.
  intros s ml ms mt mx my mz Hk Hwf. rewrite Verify_configured.
  destruct (Visit_first_extents s Hk Hwf
              (configured new_GPUCodeVerifier ml ms mt mx my mz))
    as (this' & -> & Hv & _).
  simpl. f_equal. rewrite Hv.
  rewrite (first_extents_within_first _ _ _ _ (thread_extents_names s)).
  reflexivity.
Qed.

Lemma no_kernel_verdict_witness :
  Verify new_GPUCodeVerifier x16_then_x64_outside_kernel 1 1 1 16 1 1 = Ok true
  /\ Verify new_GPUCodeVerifier x64_outside_kernel 1 1 1 32 1 1 = Ok false
  /\ Verify new_GPUCodeVerifier allocations_outside_kernel 1 1 1 32 1 1 = Ok true.
Proof.
  split; [|split].
  - apply (no_kernel_verdict x16_then_x64_outside_kernel 1 1 1 16 1 1);
      reflexivity.
  - apply (no_kernel_verdict x64_outside_kernel 1 1 1 32 1 1); reflexivity.
  - apply (no_kernel_verdict allocations_outside_kernel 1 1 1 32 1 1);
      reflexivity.
Defined.

(** ** The checks behind the verdict *)

Lemma Visit_checked_OtherStmt cs this :
  Visit_checked (OtherStmt cs) this = visit_children_checked cs this.
Proof. induction cs; reflexivity. Qed.

Lemma all_true_app l l' : all_true (l ++ l')%list = all_true l && all_true l'.
Proof. apply forallb_app. Qed.

(** *** Erasing the record gives back the traversal *)

Lemma erase_bind_checked {A B} (r : checked A) (k : A -> checked B) :
  erase (bind_checked r k) = bind (erase r) (fun a => erase (k a)).
Proof.
  destruct r as [[a l]|f]; simpl; [|reflexivity].
  destruct (k a) as [[b l']|g]; reflexivity.
Qed.

Lemma erase_unchecked {A} (r : result A) : erase (unchecked r) = r.
Proof. destruct r; reflexivity. Qed.

Lemma bind_ext {A B} (r : result A) (k k' : A -> result B) :
  (forall a, k a = k' a) -> bind r k = bind r k'.
Proof. intros H. destruct r; simpl; auto. Qed.

Lemma erase_check_kernel this :
  erase (check_kernel_checked this) = Ok (check_kernel_ this).
Proof. reflexivity. Qed.

Lemma erase_count_thread name e this :
  erase (count_thread_checked name e this) = Ok (count_thread_ name e this).
Proof.
  unfold count_thread_checked, count_thread_.
  repeat (match goal with |- context [if ?c then _ else _] => destruct c end);
    reflexivity.
Qed.

Lemma erase_annotate node key value this :
  erase (annotate_checked node key value this) = annotate_ node key value this.
Proof.
  unfold annotate_checked.
  destruct (String.eqb key storage_scope) eqn:Hs; [apply erase_unchecked|].
  unfold annotate_. rewrite Hs.
  destruct (String.eqb key thread_extent); [|reflexivity].
  destruct (as_IterVarNode node); [|reflexivity].
  destruct (as_IntImm value); [|reflexivity]. simpl.
  destruct (is_thread_name _); [|reflexivity].
  destruct (negb _); [apply erase_count_thread|reflexivity].
Qed.

Lemma erase_Visit_checked s : forall this, erase (Visit_checked s this) = Visit s this.
Proof.
  induction s as [p body IH | v t n body IH | node key value body IH | cs IH]
    using Stmt_ind; intros this.
  - rewrite Visit_ProducerConsumer_eq.
    change (Visit_checked (ProducerConsumer p body) this)
      with (Visit_ProducerConsumer_checked Visit_checked p body this).
    unfold Visit_ProducerConsumer_checked, Visit_ProducerConsumer.
    rewrite erase_bind_checked.
    assert (Hin :
      erase (if p then
               let+ this0 := unchecked (incr_nest_level_
                   (if nest_level_ this =? 0 then Reset_ this else this)) in
               let+ this1 := Visit_checked body this0 in
               Ok (decr_nest_level_ this1, [])
             else Visit_checked body
                    (if nest_level_ this =? 0 then Reset_ this else this))
      = (if p then
           let* this0 := incr_nest_level_
               (if nest_level_ this =? 0 then Reset_ this else this) in
           let* this1 := Visit body this0 in
           Ok (decr_nest_level_ this1)
         else Visit body (if nest_level_ this =? 0 then Reset_ this else this))).
    { destruct p; [|apply IH].
      rewrite erase_bind_checked, erase_unchecked. apply bind_ext. intros a.
      rewrite erase_bind_checked, IH. reflexivity. }
    rewrite Hin. apply bind_ext. intros a.
    destruct (nest_level_ a =? 0); reflexivity.
  - rewrite Visit_Allocate_eq.
    change (Visit_checked (Allocate v t n body) this)
      with (Visit_Allocate_checked Visit_checked v t n body this).
    unfold Visit_Allocate_checked, Visit_Allocate.
    rewrite erase_bind_checked, IH. apply bind_ext. intros a.
    repeat case_bool_decide; reflexivity.
  - rewrite Visit_AttrStmt_eq.
    change (Visit_checked (AttrStmt node key value body) this)
      with (Visit_AttrStmt_checked Visit_checked node key value body this).
    unfold Visit_AttrStmt_checked, Visit_AttrStmt.
    rewrite erase_bind_checked, erase_annotate. apply bind_ext. apply IH.
  - rewrite Visit_OtherStmt, Visit_checked_OtherStmt. revert this.
    induction IH as [|c cs Hc _ IHcs]; simpl; intros this; [reflexivity|].
    rewrite erase_bind_checked, Hc. apply bind_ext. apply IHcs.
Qed.

(** *** The traversal never looks at the verdict *)

Lemma bind_checked_revalid r k b :
  verdict_blind k ->
  bind_checked (revalid b r) k = revalid b (bind_checked r k).
Proof.
  intros Hk. destruct r as [[a l]|f]; simpl; [|reflexivity].
  rewrite Hk. destruct (k a) as [[a' l']|g]; simpl; [|reflexivity].
  rewrite all_true_app, andb_assoc. reflexivity.
Qed.

Lemma blind_bind k1 k2 :
  verdict_blind k1 -> verdict_blind k2 ->
  verdict_blind (fun this => bind_checked (k1 this) k2).
Proof.
  intros H1 H2 this b. rewrite H1. apply bind_checked_revalid. exact H2.
Qed.

Lemma blind_pure (f : GPUCodeVerifier -> GPUCodeVerifier) :
  (forall this b, f (set_valid_ this b) = set_valid_ (f this) b) ->
  verdict_blind (fun this => Ok (f this, [])).
Proof.
  intros Hf this b. simpl. rewrite Hf, andb_true_r. reflexivity.
Qed.

Lemma blind_and_valid (c : GPUCodeVerifier -> bool) :
  (forall this b, c (set_valid_ this b) = c this) ->
  verdict_blind (fun this => and_valid_checked (c this) this).
Proof.
  intros Hc this b. unfold and_valid_checked, and_valid_, all_true. simpl.
  rewrite Hc, andb_true_r. reflexivity.
Qed.

Lemma blind_check_kernel : verdict_blind check_kernel_checked.
Proof.
  unfold check_kernel_checked.
  apply (blind_bind
           (fun this => and_valid_checked
              (thread_per_block_ this <=? max_thread_per_block_ this) this)).
  - apply (blind_and_valid
             (fun this => thread_per_block_ this <=? max_thread_per_block_ this)).
    reflexivity.
  - apply (blind_bind
             (fun this => and_valid_checked
                (local_memory_per_block_ this
                 <=? max_local_memory_per_block_ this) this)).
    + apply (blind_and_valid
               (fun this => local_memory_per_block_ this
                            <=? max_local_memory_per_block_ this)).
      reflexivity.
    + apply (blind_and_valid
               (fun this => shared_memory_per_block_ this
                            <=? max_shared_memory_per_block_ this)).
      reflexivity.
Qed.

Lemma blind_count_thread name e : verdict_blind (count_thread_checked name e).
Proof.
  intros this b. unfold count_thread_checked, and_valid_checked, and_valid_, all_true.
  repeat (match goal with |- context [if ?c then _ else _] => destruct c end);
    simpl; rewrite ?andb_true_r; reflexivity.
Qed.

Lemma blind_annotate node key value : verdict_blind (annotate_checked node key value).
Proof.
  intros this b. unfold annotate_checked.
  destruct (String.eqb key storage_scope) eqn:Hs.
  - apply String.eqb_eq in Hs as ->. rewrite !annotate_storage_scope.
    destruct (as_StringImm value) as [scope|]; [|reflexivity].
    destruct (String.eqb scope "local");
      [|destruct (String.eqb scope "shared")];
      simpl; rewrite andb_true_r; reflexivity.
  - destruct (String.eqb key thread_extent); [|simpl; rewrite andb_true_r; reflexivity].
    destruct (as_IterVarNode node); [|reflexivity].
    destruct (as_IntImm value); [|reflexivity]. simpl.
    destruct (is_thread_name _); [|simpl; rewrite andb_true_r; reflexivity].
    destruct (negb _); [apply blind_count_thread|].
    simpl; rewrite andb_true_r; reflexivity.
Qed.

Lemma blind_Visit_checked s : verdict_blind (Visit_checked s).
Proof.
  induction s as [p body IH | v t n body IH | node key value body IH | cs IH]
    using Stmt_ind.
  - intros this b.
    change (Visit_checked (ProducerConsumer p body))
      with (Visit_ProducerConsumer_checked Visit_checked p body).
    unfold Visit_ProducerConsumer_checked.
    change (nest_level_ (set_valid_ this b)) with (nest_level_ this).
    replace (if nest_level_ this =? 0 then Reset_ (set_valid_ this b)
             else set_valid_ this b)
      with (set_valid_ (if nest_level_ this =? 0 then Reset_ this else this) b)
      by (destruct (nest_level_ this =? 0); reflexivity).
    generalize (if nest_level_ this =? 0 then Reset_ this else this).
    clear this. intros this.
    apply (blind_bind
             (fun this =>
                if p then
                  let+ this0 := unchecked (incr_nest_level_ this) in
                  let+ this1 := Visit_checked body this0 in
                  Ok (decr_nest_level_ this1, [])
                else Visit_checked body this)
             (fun this =>
                if nest_level_ this =? 0 then check_kernel_checked this
                else Ok (this, []))).
    + destruct p; [|exact IH].
      apply (blind_bind (fun this => unchecked (incr_nest_level_ this))).
      * intros a c. unfold incr_nest_level_. simpl.
        destruct (nest_level_ a =? INT_MAX); simpl;
          rewrite ?andb_true_r; reflexivity.
      * apply (blind_bind (Visit_checked body)); [exact IH|].
        apply (blind_pure decr_nest_level_). reflexivity.
    + intros a c. simpl. destruct (nest_level_ a =? 0).
      * apply blind_check_kernel.
      * simpl. rewrite andb_true_r. reflexivity.
  - change (Visit_checked (Allocate v t n body))
      with (Visit_Allocate_checked Visit_checked v t n body).
    unfold Visit_Allocate_checked.
    apply (blind_bind (Visit_checked body)); [exact IH|].
    intros a c. simpl. repeat case_bool_decide; simpl;
      rewrite andb_true_r; reflexivity.
  - change (Visit_checked (AttrStmt node key value body))
      with (Visit_AttrStmt_checked Visit_checked node key value body).
    unfold Visit_AttrStmt_checked.
    apply (blind_bind (annotate_checked node key value)); [|exact IH].
    apply blind_annotate.
  - intros this b. rewrite !Visit_checked_OtherStmt. revert this b.
    induction IH as [|c cs Hc _ IHcs]; intros this b; simpl.
    + rewrite andb_true_r. reflexivity.
    + apply (blind_bind (Visit_checked c) (visit_children_checked cs) Hc IHcs).
Qed.

Lemma set_valid_id this : set_valid_ this (valid_ this) = this.
Proof. destruct this; reflexivity. Qed.

Lemma erase_Ok {A} (r : checked A) a :
  erase r = Ok a -> exists l, r = Ok (a, l).
Proof. destruct r as [[a' l]|f]; simpl; intros [= <-]. eauto. Qed.

Lemma Visit_checked_valid s this this' checks :
  Visit_checked s this = Ok (this', checks) ->
  valid_ this' = valid_ this && all_true checks.
Proof.
  intros H. pose proof (blind_Visit_checked s this (valid_ this)) as Hb.
  rewrite set_valid_id, H in Hb. simpl in Hb. injection Hb as Hb.
  rewrite Hb at 1. reflexivity.
Qed.

Lemma Visit_checked_of_Visit s this this' :
  Visit s this = Ok this' -> exists checks, Visit_checked s this = Ok (this', checks).
Proof. intros H. apply erase_Ok. rewrite erase_Visit_checked. exact H. Qed.

(** C8: the verdict is one boolean, true in a new verifier and left alone by
    [Verify] before the traversal, and the traversal only ANDs check results
    into it: the final verdict is the initial one ANDed with every check
    performed, so it never goes from false back to true.  The traversal never
    reads the verdict: started from any verdict it performs the same checks
    and ends in the same state up to the verdict, so nothing ends early after
    a failure.  The value [Verify] returns is the conjunction of all checks
    performed over the tree.  With a violating kernel followed by a compliant
    one, the checks of both appear in the record. *)
Theorem verdict_is_conjunction :
  valid_ new_GPUCodeVerifier = true
  /\ (forall this ml ms mt mx my mz,
        valid_ (configured this ml ms mt mx my mz) = valid_ this)
  /\ (forall s this, erase (Visit_checked s this) = Visit s this)
  /\ (forall s this this' checks,
        Visit_checked s this = Ok (this', checks) ->
        valid_ this' = valid_ this && all_true checks)
  /\ (forall s this this',
        Visit s this = Ok this' -> valid_ this = false -> valid_ this' = false)
  /\ (forall s this b,
        Visit_checked s (set_valid_ this b) = revalid b (Visit_checked s this))
  /\ (forall s ml ms mt mx my mz v,
        Verify new_GPUCodeVerifier s ml ms mt mx my mz = Ok v ->
        exists this' checks,
          Visit_checked s (configured new_GPUCodeVerifier ml ms mt mx my mz)
          = Ok (this', checks)
          /\ v = all_true checks)
  /\ (exists this',
        Visit_checked (Block kernel_1024 kernel_32_8) start_256
        = Ok (this', [false; false; true; true; true; true; true; true; true])).
Proof.
  split; [reflexivity|]. split; [reflexivity|].
  split; [exact erase_Visit_checked|].
  split; [exact Visit_checked_valid|].
  split; [|split; [exact blind_Visit_checked|split]].
  - intros s this this' H Hf.
    destruct (Visit_checked_of_Visit _ _ _ H) as (checks & Hc).
    rewrite (Visit_checked_valid _ _ _ _ Hc), Hf. reflexivity.
  - intros s ml ms mt mx my mz v H. rewrite Verify_configured in H.
    apply bind_Ok in H as (this' & H & [= <-]).
    destruct (Visit_checked_of_Visit _ _ _ H) as (checks & Hc).
    exists this', checks. split; [exact Hc|].
    rewrite (Visit_checked_valid _ _ _ _ Hc). reflexivity.
  - eexists. vm_compute. reflexivity.
Qed.

Lemma verdict_is_conjunction_witness :
  valid_ after_kernel_1024 = valid_ start_256 && all_true [false; false; true; true]
  /\ valid_ after_kernel_1024 = false
  /\ (exists this' checks,
        Visit_checked kernel_32_8
          (configured new_GPUCodeVerifier INT64_MAX INT64_MAX 256 32 16 INT64_MAX)
        = Ok (this', checks)
        /\ true = all_true checks).
Proof.
  split; [|split].
  - apply (proj1 (proj2 (proj2 (proj2 verdict_is_conjunction))) kernel_1024).
    vm_compute. reflexivity.
  - apply (proj1 (proj2 (proj2 (proj2 (proj2 verdict_is_conjunction))))
             kernel_1024 (set_valid_ start_256 false)).
    + vm_compute. reflexivity.
    + reflexivity.
  - apply (proj1 (proj2 (proj2 (proj2 (proj2 (proj2 (proj2 verdict_is_conjunction)))))) kernel_32_8).
    vm_compute. reflexivity.
Defined.

(** ** Allocations and classifications outside every kernel region *)

Lemma agree_outside_refl a : nest_level_ a = 0 -> agree_outside a a.
Proof. intros H. repeat split; assumption. Qed.

Lemma agree_outside_nest a b : agree_outside a b -> nest_level_ b = 0.
Proof. intros (Ha & ((Hn & _) & _) & _). congruence. Qed.

(** The accounting step of an allocation, after its subtree. *)
Lemma Visit_Allocate_agree_l v t n body a (r : result GPUCodeVerifier) :
  same_outcome (Visit body a) r -> same_outcome (Visit (Allocate v t n body) a) r.
Proof.
  rewrite Visit_Allocate_eq. unfold Visit_Allocate.
  destruct (Visit body a) as [c|f]; simpl; [|auto].
  destruct r as [d|g]; simpl; [|repeat case_bool_decide; auto].
  intros H. repeat case_bool_decide; exact H.
Qed.

Lemma Visit_Allocate_agree_r v t n body b (r : result GPUCodeVerifier) :
  same_outcome r (Visit body b) -> same_outcome r (Visit (Allocate v t n body) b).
Proof.
  rewrite Visit_Allocate_eq. unfold Visit_Allocate.
  destruct (Visit body b) as [c|f]; simpl; [|auto].
  destruct r as [d|g]; simpl; [|repeat case_bool_decide; auto].
  intros H. repeat case_bool_decide; exact H.
Qed.

(** A storage-scope annotation with a scope string keeps the agreement. *)
Lemma annotate_scope_agree_r node scope a b :
  agree_outside a b ->
  exists b1, annotate_ node storage_scope (StringImm scope) b = Ok b1
             /\ agree_outside a b1.
Proof.
  intros H. rewrite annotate_storage_scope. simpl.
  destruct (String.eqb scope "local"); [eexists; split; [reflexivity|exact H]|].
  destruct (String.eqb scope "shared"); eexists; (split; [reflexivity|exact H]).
Qed.

Lemma annotate_scope_agree_l node scope a b :
  agree_outside a b ->
  exists a1, annotate_ node storage_scope (StringImm scope) a = Ok a1
             /\ agree_outside a1 b.
Proof.
  intros H. rewrite annotate_storage_scope. simpl.
  destruct (String.eqb scope "local"); [eexists; split; [reflexivity|exact H]|].
  destruct (String.eqb scope "shared"); eexists; (split; [reflexivity|exact H]).
Qed.

(** Any annotation, applied on both sides. *)
Lemma annotate_agree node key value a b :
  agree_outside a b ->
  same_outcome (annotate_ node key value a) (annotate_ node key value b).
Proof.
  intros H. destruct (String.eqb key storage_scope) eqn:Hs.
  - apply String.eqb_eq in Hs as ->. rewrite !annotate_storage_scope.
    destruct (as_StringImm value) as [scope|]; [|reflexivity].
    destruct (String.eqb scope "local"); [exact H|].
    destruct (String.eqb scope "shared"); exact H.
  - destruct (String.eqb key thread_extent) eqn:Ht.
    + apply String.eqb_eq in Ht as ->. rewrite !annotate_thread_extent.
      destruct (as_IterVarNode node) as [iv|]; [|reflexivity].
      destruct (as_IntImm value) as [e|]; [|reflexivity].
      destruct H as (Hn & ((Hn' & Hl & Hsh & Htp & Hx & Hy & Hz) & Hv) & Hth).
      rewrite Hth.
      destruct (_ && _); [|repeat split; assumption].
      unfold count_thread_, and_valid_; simpl.
      repeat (match goal with |- context [if ?c then _ else _] => destruct c end);
        repeat split; simpl; congruence.
    + unfold annotate_. rewrite Hs, Ht. exact H.
Qed.

Lemma Visit_ProducerConsumer_agree p body a b :
  agree_outside a b ->
  Visit (ProducerConsumer p body) a = Visit (ProducerConsumer p body) b.
Proof.
  intros H. pose proof (agree_outside_nest _ _ H) as Hb.
  destruct H as (Ha & Hab & _).
  rewrite (Visit_ProducerConsumer_Reset p body a Ha).
  rewrite (Visit_ProducerConsumer_Reset p body b Hb).
  rewrite (Reset_same_outside_kernel a b Hab). reflexivity.
Qed.

Lemma same_outcome_refl r :
  (forall a, r = Ok a -> nest_level_ a = 0) -> same_outcome r r.
Proof.
  destruct r as [a|f]; simpl; [|reflexivity].
  intros H. apply agree_outside_refl. auto.
Qed.

Lemma same_outcome_bind r1 r2 k1 k2 :
  same_outcome r1 r2 ->
  (forall a b, agree_outside a b -> same_outcome (k1 a) (k2 b)) ->
  same_outcome (bind r1 k1) (bind r2 k2).
Proof.
  destruct r1 as [a|f], r2 as [b|g]; simpl; auto; contradiction.
Qed.

(** The same tree visited from two agreeing verifiers. *)
Lemma Visit_agree s :
  forall a b, agree_outside a b -> same_outcome (Visit s a) (Visit s b).
Proof.
  induction s as [p body IH | v t n body IH | node key value body IH | cs IH]
    using Stmt_ind; intros a b H.
  - rewrite <- (Visit_ProducerConsumer_agree p body a b H).
    apply same_outcome_refl. intros c Hc.
    rewrite (Visit_nest_level _ _ _ Hc). apply H.
  - apply Visit_Allocate_agree_l, Visit_Allocate_agree_r, IH, H.
  - rewrite !Visit_AttrStmt_eq. unfold Visit_AttrStmt.
    apply same_outcome_bind; [apply annotate_agree, H|exact IH].
  - rewrite !Visit_OtherStmt. revert a b H.
    induction IH as [|c cs Hc _ IHcs]; simpl; intros a b H; [exact H|].
    apply same_outcome_bind; auto.
Qed.

Lemma Visit_outside_edit :
  forall s s', outside_edit s s' ->
  forall a b, agree_outside a b -> same_outcome (Visit s a) (Visit s' b).
Proof.
  apply (outside_edit_mut
           (fun s s' => forall a b, agree_outside a b ->
                                    same_outcome (Visit s a) (Visit s' b))
           (fun cs cs' => forall a b, agree_outside a b ->
                                      same_outcome (visit_children cs a)
                                                   (visit_children cs' b))).
  - intros s a b H. apply Visit_agree, H.
  - intros v t n s s' _ IH a b H. apply Visit_Allocate_agree_r, IH, H.
  - intros v t n s s' _ IH a b H. apply Visit_Allocate_agree_l, IH, H.
  - intros node scope s s' _ IH a b H.
    rewrite (Visit_AttrStmt_eq node). unfold Visit_AttrStmt.
    destruct (annotate_scope_agree_r node scope a b H) as (b1 & -> & H1).
    simpl. apply IH, H1.
  - intros node scope s s' _ IH a b H.
    rewrite (Visit_AttrStmt_eq node). unfold Visit_AttrStmt.
    destruct (annotate_scope_agree_l node scope a b H) as (a1 & -> & H1).
    simpl. apply IH, H1.
  - intros node key value s s' _ IH a b H.
    rewrite !Visit_AttrStmt_eq. unfold Visit_AttrStmt.
    apply same_outcome_bind; [apply annotate_agree, H|exact IH].
  - intros cs cs' _ IH a b H. rewrite !Visit_OtherStmt. apply IH, H.
  - intros a b H. exact H.
  - intros s s' cs cs' _ IHs _ IHcs a b H. simpl.
    apply same_outcome_bind; auto.
Qed.

Lemma Verify_outside_edit s s' ml ms mt mx my mz :
  outside_edit s s' ->
  Verify new_GPUCodeVerifier s ml ms mt mx my mz
  = Verify new_GPUCodeVerifier s' ml ms mt mx my mz.
Proof.
  intros H. rewrite !Verify_configured.
  pose proof (Visit_outside_edit s s' H
                (configured new_GPUCodeVerifier ml ms mt mx my mz)
                (configured new_GPUCodeVerifier ml ms mt mx my mz)
                (agree_outside_refl
                   (configured new_GPUCodeVerifier ml ms mt mx my mz) eq_refl))
    as Hrun.
  destruct (Visit s _) as [a|f], (Visit s' _) as [b|g]; simpl in *;
    try contradiction.
  - destruct Hrun as (_ & (_ & Hv) & _). congruence.
  - congruence.
Qed.

Lemma kernel_in_allocation_edit :
  outside_edit (Block kernel_shared_4096 Evaluate) kernel_in_allocation.
Proof. apply oe_insert_scope, oe_insert_Allocate, oe_same. Qed.

Lemma kernel_then_allocation_edit :
  outside_edit kernel_then_allocation (Block kernel_shared_4096 Evaluate).
Proof.
  apply oe_OtherStmt, oes_cons; [apply oe_same|].
  apply oes_cons; [|apply oes_nil].
  apply oe_remove_Allocate, oe_same.
Qed.

Example kernel_then_allocation_accepted :
  VerifyGPUCode kernel_then_allocation (shared_limit 4096) = Ok true
  /\ VerifyGPUCode (Block kernel_shared_4096 Evaluate) (shared_limit 4096) = Ok true.
Proof. split; vm_compute; reflexivity. Qed.

(** C9: allocation nodes and storage-scope annotations (each carrying its
    scope string) that no kernel-region marker encloses never affect the
    result: a tree and the tree obtained by inserting or removing such nodes
    outside every marker give the same result of verify, for all bounds and
    for every configuration. *)
Theorem outside_allocations_ignored :
  forall s s',
    outside_edit s s' ->
    (forall ml ms mt mx my mz,
       Verify new_GPUCodeVerifier s ml ms mt mx my mz
       = Verify new_GPUCodeVerifier s' ml ms mt mx my mz)
    /\ (forall constraints : gmap string Expr,
          VerifyGPUCode s constraints = VerifyGPUCode s' constraints).
Proof.
  intros s s' H. split.
  - intros ml ms mt mx my mz. apply Verify_outside_edit, H.
  - intros constraints. unfold VerifyGPUCode.
    repeat match goal with
           | |- context [get_int constraints ?k INT64_MAX] =>
               destruct (get_int constraints k INT64_MAX) as [?|?]; simpl;
               [|reflexivity]
           end.
    apply Verify_outside_edit, H.
Qed.

Lemma outside_allocations_ignored_witness :
  ((forall ml ms mt mx my mz,
      Verify new_GPUCodeVerifier (Block kernel_shared_4096 Evaluate) ml ms mt mx my mz
      = Verify new_GPUCodeVerifier kernel_in_allocation ml ms mt mx my mz)
   /\ (forall constraints : gmap string Expr,
         VerifyGPUCode (Block kernel_shared_4096 Evaluate) constraints
         = VerifyGPUCode kernel_in_allocation constraints))
  /\ VerifyGPUCode kernel_in_allocation (shared_limit 4096) = Ok true
  /\ VerifyGPUCode kernel_then_allocation (shared_limit 4096) = Ok true
  /\ VerifyGPUCode kernel_in_allocation (local_limit 1) = Ok true.
Proof.
  split.
  - apply (outside_allocations_ignored (Block kernel_shared_4096 Evaluate)
             kernel_in_allocation).
    exact kernel_in_allocation_edit.
  - repeat split; vm_compute; reflexivity.
Defined.

(** * Further properties of the traversal *)

(** ** When the traversal completes *)

Lemma producer_depth_nonneg s : 0 <= producer_depth s.
Proof.
  induction s as [p body IH | v t n body IH | node key value body IH | cs IH]
    using Stmt_ind; simpl; try assumption.
  - destruct p; lia.
  - induction IH as [|c cs Hc _ IHcs]; simpl; lia.
Qed.

Lemma annotate_Ok_well_formed node key value this this1 :
  annotate_ node key value this = Ok this1 ->
  annotation_well_formed node key value = true.
Proof.
  unfold annotation_well_formed, scope_is_string, thread_extent_is_typed, annotate_.
  intros H. destruct (String.eqb key storage_scope) eqn:Hs.
  - apply String.eqb_eq in Hs as ->.
    change (String.eqb storage_scope thread_extent) with false.
    destruct (as_StringImm value); [reflexivity|discriminate].
  - destruct (String.eqb key thread_extent); [|reflexivity].
    destruct (as_IterVarNode node); [|discriminate].
    destruct (as_IntImm value); [reflexivity|discriminate].
Qed.

Lemma Visit_Ok_well_formed s :
  forall this this',
    nest_level_ this <= INT_MAX ->
    Visit s this = Ok this' ->
    every_annotation annotation_well_formed s = true
    /\ nest_level_ this + producer_depth s <= INT_MAX.
Proof.
  induction s as [p body IH | v t n body IH | node key value body IH | cs IH]
    using Stmt_ind; intros this this' Hle H; simpl.
  - rewrite Visit_ProducerConsumer_eq in H. unfold Visit_ProducerConsumer in H.
    apply bind_Ok in H as (c & Hc & _).
    assert (Hn : nest_level_ (if nest_level_ this =? 0 then Reset_ this else this)
                 = nest_level_ this) by (destruct (_ =? 0); reflexivity).
    destruct p.
    + apply bind_Ok in Hc as (d & Hd & Hc).
      apply bind_Ok in Hc as (e & He & _).
      unfold incr_nest_level_ in Hd. rewrite Hn in Hd.
      destruct (nest_level_ this =? INT_MAX) eqn:Hmax; [discriminate|].
      apply Z.eqb_neq in Hmax. injection Hd as <-.
      apply IH in He; simpl; rewrite ?Hn; [|lia].
      simpl in He. split; [apply He|lia].
    + apply IH in Hc; rewrite ?Hn; [|lia]. rewrite Hn in Hc.
      split; [apply Hc|lia].
  - rewrite Visit_Allocate_eq in H. unfold Visit_Allocate in H.
    apply bind_Ok in H as (c & Hc & _). eauto.
  - rewrite Visit_AttrStmt_eq in H. unfold Visit_AttrStmt in H.
    apply bind_Ok in H as (c & Hc & H).
    pose proof (annotate_Ok_well_formed _ _ _ _ _ Hc) as Hwf.
    apply annotate_config in Hc. destruct Hc as (Hn & _).
    apply IH in H; [|lia]. rewrite Hn in H. rewrite Hwf. exact H.
  - rewrite Visit_OtherStmt in H. revert this this' Hle H.
    induction IH as [|c cs Hc _ IHcs]; simpl; intros this this' Hle H.
    + split; [reflexivity|lia].
    + apply bind_Ok in H as (d & Hd & H).
      pose proof (Visit_nest_level _ _ _ Hd) as Hn.
      apply Hc in Hd; [|assumption]. apply IHcs in H; [|lia].
      rewrite Hn in H. destruct Hd as (-> & Hd1), H as (-> & H1).
      split; [reflexivity|lia].
Qed.

Lemma Visit_well_formed_Ok s :
  every_annotation annotation_well_formed s = true ->
  forall this,
    nest_level_ this + producer_depth s <= INT_MAX ->
    exists this', Visit s this = Ok this'.
Proof.
  induction s as [p body IH | v t n body IH | node key value body IH | cs IH]
    using Stmt_ind; intros Hwf this Hle; simpl in Hwf, Hle.
  - rewrite Visit_ProducerConsumer_eq. unfold Visit_ProducerConsumer.
    assert (Hn : nest_level_ (if nest_level_ this =? 0 then Reset_ this else this)
                 = nest_level_ this) by (destruct (_ =? 0); reflexivity).
    pose proof (producer_depth_nonneg body) as Hd.
    destruct p.
    + unfold incr_nest_level_. rewrite Hn.
      destruct (nest_level_ this =? INT_MAX) eqn:Hmax;
        [apply Z.eqb_eq in Hmax; lia|].
      simpl.
      destruct (IH Hwf (set_nest_level_
                          (if nest_level_ this =? 0 then Reset_ this else this)
                          (nest_level_ this + 1))) as (c & ->);
        [simpl; lia|].
      simpl. eauto.
    + destruct (IH Hwf (if nest_level_ this =? 0 then Reset_ this else this))
        as (c & ->); [rewrite Hn; lia|].
      simpl. eauto.
  - rewrite Visit_Allocate_eq. unfold Visit_Allocate.
    destruct (IH Hwf this Hle) as (c & ->). simpl.
    repeat case_bool_decide; eauto.
  - rewrite Visit_AttrStmt_eq. unfold Visit_AttrStmt.
    apply andb_true_iff in Hwf as (Hwf1 & Hwf).
    destruct (annotate_well_formed _ _ _ this Hwf1) as (c & Hc). rewrite Hc. simpl.
    apply annotate_config in Hc. destruct Hc as (Hn & _).
    apply IH; [exact Hwf|lia].
  - rewrite Visit_OtherStmt. revert this Hle.
    induction IH as [|c cs Hc _ IHcs]; simpl in *; intros this Hle; [eauto|].
    apply andb_true_iff in Hwf as (Hwf1 & Hwf).
    destruct (Hc Hwf1 this) as (d & Hd); [lia|]. rewrite Hd. simpl.
    apply Visit_nest_level in Hd. apply IHcs; [exact Hwf|lia].
Qed.

(** X1: the traversal runs to completion exactly on the trees whose
    annotations are all well-formed (a string constant for every storage
    scope; an iteration variable and a constant integer for every thread
    extent) and whose producer markers do not nest deeper than the [int]
    nest counter can count.  So [Verify] on a new verifier returns a verdict
    exactly for those trees, whatever the bounds. *)
Theorem traversal_completes_iff :
  forall s this,
    nest_level_ this <= INT_MAX ->
    ((exists this', Visit s this = Ok this')
     <-> every_annotation annotation_well_formed s = true
         /\ nest_level_ this + producer_depth s <= INT_MAX)
    /\ (forall ml ms mt mx my mz,
          (exists v, Verify this s ml ms mt mx my mz = Ok v)
          <-> every_annotation annotation_well_formed s = true
              /\ nest_level_ this + producer_depth s <= INT_MAX).
Proof.
  intros s this Hle.
  assert (Hiff : forall a, nest_level_ a = nest_level_ this ->
            ((exists a', Visit s a = Ok a')
             <-> every_annotation annotation_well_formed s = true
                 /\ nest_level_ this + producer_depth s <= INT_MAX)).
  { intros a Ha. rewrite <- Ha. split.
    - intros (a' & H). apply (Visit_Ok_well_formed s a a'); [lia|exact H].
    - intros (Hwf & Hd). apply Visit_well_formed_Ok; assumption. }
  split; [apply Hiff; reflexivity|].
  intros ml ms mt mx my mz. rewrite Verify_configured.
  rewrite <- (Hiff (configured this ml ms mt mx my mz) eq_refl). split.
  - intros (v & H). apply bind_Ok in H as (a' & H & _). eauto.
  - intros (a' & ->). simpl. eauto.
Qed.

Lemma traversal_completes_iff_witness :
  ((exists this', Visit kernel_shared_4096 new_GPUCodeVerifier = Ok this')
   <-> every_annotation annotation_well_formed kernel_shared_4096 = true
       /\ nest_level_ new_GPUCodeVerifier + producer_depth kernel_shared_4096
          <= INT_MAX)
  /\ (forall ml ms mt mx my mz,
        (exists v, Verify new_GPUCodeVerifier kernel_shared_4096 ml ms mt mx my mz
                   = Ok v)
        <-> every_annotation annotation_well_formed kernel_shared_4096 = true
            /\ nest_level_ new_GPUCodeVerifier + producer_depth kernel_shared_4096
               <= INT_MAX).
Proof.
  apply (traversal_completes_iff kernel_shared_4096 new_GPUCodeVerifier).
  vm_compute. discriminate.
Defined.

(** ** A simulation principle for the traversal *)

Lemma Visit_Allocate_account v t n body this :
  Visit (Allocate v t n body) this
  = let* mid := Visit body this in Ok (account_ v t n mid).
Proof.
  rewrite Visit_Allocate_eq. unfold Visit_Allocate, account_, allocation_size.
  apply bind_ext. intros a. repeat case_bool_decide; reflexivity.
Qed.

Lemma rel_result_bind R r1 r2 k1 k2 :
  rel_result R r1 r2 ->
  (forall a b, R a b -> rel_result R (k1 a) (k2 b)) ->
  rel_result R (bind r1 k1) (bind r2 k2).
Proof. destruct r1 as [a|f], r2 as [b|g]; simpl; auto; contradiction. Qed.

Section Simulation.
Variable R : GPUCodeVerifier -> GPUCodeVerifier -> Prop.
Hypothesis R_nest : forall a b, R a b -> nest_level_ b = nest_level_ a.
Hypothesis R_Reset : forall a b, R a b -> R (Reset_ a) (Reset_ b).
Hypothesis R_set_nest :
  forall a b n, R a b -> R (set_nest_level_ a n) (set_nest_level_ b n).
Hypothesis R_check : forall a b, R a b -> R (check_kernel_ a) (check_kernel_ b).
Hypothesis R_annotate :
  forall node key value a b,
    R a b ->
    rel_result R (annotate_ node key value a) (annotate_ node key value b).
Hypothesis R_account :
  forall v t n a b, R a b -> R (account_ v t n a) (account_ v t n b).

Lemma Visit_simulation s :
  forall a b, R a b -> rel_result R (Visit s a) (Visit s b).
Proof.
  induction s as [p body IH | v t n body IH | node key value body IH | cs IH]
    using Stmt_ind; intros a b H.
  - rewrite !Visit_ProducerConsumer_eq. unfold Visit_ProducerConsumer.
    rewrite (R_nest a b H).
    assert (H0 : R (if nest_level_ a =? 0 then Reset_ a else a)
                   (if nest_level_ a =? 0 then Reset_ b else b))
      by (destruct (nest_level_ a =? 0); auto).
    revert H0.
    generalize (if nest_level_ a =? 0 then Reset_ a else a).
    generalize (if nest_level_ a =? 0 then Reset_ b else b).
    intros b0 a0 H0.
    apply rel_result_bind.
    + destruct p; [|auto].
      unfold incr_nest_level_, decr_nest_level_. rewrite (R_nest a0 b0 H0).
      destruct (nest_level_ a0 =? INT_MAX); simpl; [reflexivity|].
      apply rel_result_bind; [auto|].
      intros a1 b1 H1. simpl. rewrite (R_nest a1 b1 H1). auto.
    + intros a1 b1 H1. simpl. rewrite (R_nest a1 b1 H1).
      destruct (nest_level_ a1 =? 0); auto.
  - rewrite !Visit_Allocate_account.
    apply rel_result_bind; [auto|]. intros a1 b1 H1. simpl. auto.
  - rewrite !Visit_AttrStmt_eq. unfold Visit_AttrStmt.
    apply rel_result_bind; auto.
  - rewrite !Visit_OtherStmt. revert a b H.
    induction IH as [|c cs Hc _ IHcs]; simpl; intros a b H; [exact H|].
    apply rel_result_bind; auto.
Qed.
End Simulation.

(** ** Invariants of the traversal *)

Lemma to_size_t_range x : 0 <= to_size_t x < SIZE_MODULUS.
Proof. unfold to_size_t. apply Z.mod_pos_bound. reflexivity. Qed.

Lemma counters_in_range_Reset this : counters_in_range (Reset_ this).
Proof. repeat split; simpl; try lia; reflexivity. Qed.

Lemma count_thread_in_range name e this :
  counters_in_range this -> counters_in_range (count_thread_ name e this).
Proof.
  intros (Ht & Hl & Hs). unfold count_thread_, counters_in_range.
  repeat (match goal with |- context [if ?c then _ else _] => destruct c end);
    simpl; unfold size_mul; repeat split; try apply to_size_t_range; lia.
Qed.

Lemma annotate_in_range node key value this this1 :
  counters_in_range this ->
  annotate_ node key value this = Ok this1 ->
  counters_in_range this1.
Proof.
  unfold annotate_. intros Hr H.
  repeat (match type of H with
          | context [if ?c then _ else _] => destruct c
          | context [match ?c with _ => _ end] => destruct c
          end; try discriminate);
    injection H as <-; auto using count_thread_in_range.
Qed.

Lemma account_in_range v t n this :
  counters_in_range this -> counters_in_range (account_ v t n this).
Proof.
  intros (Ht & Hl & Hs). unfold account_, counters_in_range.
  repeat case_bool_decide; simpl; unfold size_add;
    repeat split; try apply to_size_t_range; lia.
Qed.

Lemma Visit_in_range s this this' :
  counters_in_range this -> Visit s this = Ok this' -> counters_in_range this'.
Proof.
  intros Hr H.
  pose proof (Visit_simulation (fun a b => a = b /\ counters_in_range a)) as Hsim.
  specialize (Hsim ltac:(intros a b [-> _]; reflexivity)
                   ltac:(intros a b [-> _]; auto using counters_in_range_Reset)
                   ltac:(intros a b n [-> Ha]; split; [reflexivity|exact Ha])
                   ltac:(intros a b [-> Ha]; split; [reflexivity|exact Ha])).
  assert (Hann : forall node key value a b,
             a = b /\ counters_in_range a ->
             rel_result (fun a b => a = b /\ counters_in_range a)
               (annotate_ node key value a) (annotate_ node key value b)).
  { intros node key value a b [-> Ha].
    destruct (annotate_ node key value b) as [c|f] eqn:E; simpl; [|reflexivity].
    eauto using annotate_in_range. }
  specialize (Hsim Hann
                   ltac:(intros v t n a b [-> Ha]; auto using account_in_range)
                   s this this (conj eq_refl Hr)).
  rewrite H in Hsim. apply Hsim.
Qed.

(** X2: a visit that completes leaves the nest level and the six bounds as
    it found them (every [nest_level_++] is undone by its [nest_level_--]),
    and, started with counters that hold [size_t] values, ends with counters
    that hold [size_t] values. *)
Theorem traversal_restores_configuration :
  forall s this this',
    Visit s this = Ok this' ->
    nest_level_ this' = nest_level_ this
    /\ max_local_memory_per_block_ this' = max_local_memory_per_block_ this
    /\ max_shared_memory_per_block_ this' = max_shared_memory_per_block_ this
    /\ max_thread_per_block_ this' = max_thread_per_block_ this
    /\ max_thread_x_ this' = max_thread_x_ this
    /\ max_thread_y_ this' = max_thread_y_ this
    /\ max_thread_z_ this' = max_thread_z_ this
    /\ (counters_in_range this -> counters_in_range this').
Proof.
  intros s this this' H.
  destruct (Visit_config _ _ _ H) as (Hn & Hl & Hs & Ht & Hx & Hy & Hz).
  repeat (split; [assumption|]).
  intros Hr. exact (Visit_in_range s this this' Hr H).
Qed.

Lemma traversal_restores_configuration_witness :
  nest_level_ after_kernel_1024 = nest_level_ start_256
  /\ max_thread_per_block_ after_kernel_1024 = max_thread_per_block_ start_256
  /\ counters_in_range after_kernel_1024.
Proof.
  destruct (traversal_restores_configuration kernel_1024 start_256 after_kernel_1024)
    as (Hn & _ & _ & Ht & _ & _ & _ & Hr).
  - vm_compute. reflexivity.
  - split; [exact Hn|]. split; [exact Ht|].
    apply Hr. vm_compute. repeat split; discriminate.
Defined.

(** ** Limits read as [size_t] *)

Lemma unbounded_count_thread name e this :
  unbounded this -> unbounded (count_thread_ name e this).
Proof.
  intros (Hr & Hl & Hs & Ht & Hx & Hy & Hz & Hv).
  pose proof (count_thread_in_range name e this Hr) as Hr'.
  pose proof (to_size_t_range e) as He.
  assert (Hle : forall m, m = SIZE_MAX -> (to_size_t e <=? m) = true)
    by (intros m ->; apply Z.leb_le; unfold SIZE_MAX; lia).
  split; [exact Hr'|].
  unfold count_thread_, and_valid_.
  repeat (match goal with |- context [if ?c then _ else _] => destruct c end);
    simpl; rewrite ?Hle by assumption; rewrite ?Hv; auto 10.
Qed.

Lemma unbounded_annotate node key value this this1 :
  unbounded this -> annotate_ node key value this = Ok this1 -> unbounded this1.
Proof.
  unfold annotate_. intros Hu H.
  repeat (match type of H with
          | context [if ?c then _ else _] => destruct c
          | context [match ?c with _ => _ end] => destruct c
          end; try discriminate);
    injection H as <-; auto using unbounded_count_thread.
Qed.

Lemma unbounded_check_kernel this : unbounded this -> unbounded (check_kernel_ this).
Proof.
  intros (Hr & Hl & Hs & Ht & Hx & Hy & Hz & Hv). split; [exact Hr|].
  destruct Hr as (Hrt & Hrl & Hrs).
  unfold check_kernel_, and_valid_. simpl. rewrite Hv, Hl, Hs, Ht.
  repeat split; try assumption.
  rewrite !andb_true_iff, !Z.leb_le. unfold SIZE_MAX. repeat split; lia.
Qed.

Lemma unbounded_account v t n this : unbounded this -> unbounded (account_ v t n this).
Proof.
  intros (Hr & Hrest). split; [exact (account_in_range v t n this Hr)|].
  unfold account_. repeat case_bool_decide; exact Hrest.
Qed.

Lemma unbounded_Reset this : unbounded this -> unbounded (Reset_ this).
Proof.
  intros (_ & Hrest). split; [apply counters_in_range_Reset|exact Hrest].
Qed.

Lemma Visit_unbounded s this this' :
  unbounded this -> Visit s this = Ok this' -> unbounded this'.
Proof.
  intros Hu H.
  pose proof (Visit_simulation (fun a b => a = b /\ unbounded a)) as Hsim.
  specialize (Hsim ltac:(intros a b [-> _]; reflexivity)
                   ltac:(intros a b [-> Ha]; auto using unbounded_Reset)
                   ltac:(intros a b n [-> Ha]; split; [reflexivity|exact Ha])
                   ltac:(intros a b [-> Ha]; auto using unbounded_check_kernel)).
  assert (Hann : forall node key value a b,
             a = b /\ unbounded a ->
             rel_result (fun a b => a = b /\ unbounded a)
               (annotate_ node key value a) (annotate_ node key value b)).
  { intros node key value a b [-> Ha].
    destruct (annotate_ node key value b) as [c|f] eqn:E; simpl; [|reflexivity].
    eauto using unbounded_annotate. }
  specialize (Hsim Hann
                   ltac:(intros v t n a b [-> Ha]; auto using unbounded_account)
                   s this this (conj eq_refl Hu)).
  rewrite H in Hsim. apply Hsim.
Qed.

(** X3: a limit is compared as a [size_t], so a limit that casts to the
    largest [size_t] (such as -1) bounds nothing: with all six limits of
    that kind, [Verify] on a new verifier never returns false, for any
    tree: it returns true or stops on malformed input. *)
Theorem limits_of_minus_one_accept_everything :
  forall s ml ms mt mx my mz,
    to_size_t ml = SIZE_MAX -> to_size_t ms = SIZE_MAX ->
    to_size_t mt = SIZE_MAX -> to_size_t mx = SIZE_MAX ->
    to_size_t my = SIZE_MAX -> to_size_t mz = SIZE_MAX ->
    Verify new_GPUCodeVerifier s ml ms mt mx my mz = Ok true
    \/ exists f, Verify new_GPUCodeVerifier s ml ms mt mx my mz = Stop f.
Proof.
  intros s ml ms mt mx my mz Hl Hs Ht Hx Hy Hz.
  rewrite Verify_configured.
  assert (Hu : unbounded (configured new_GPUCodeVerifier ml ms mt mx my mz)).
  { split; [apply counters_in_range_Reset|]. simpl. auto 10. }
  destruct (Visit s _) as [this'|f] eqn:H; simpl; [left|right; eauto].
  f_equal. apply (Visit_unbounded s _ _ Hu H).
Qed.

Lemma limits_of_minus_one_accept_everything_witness :
  Verify new_GPUCodeVerifier kernel_1024 (-1) (-1) (-1) (-1) (-1) (-1) = Ok true
  \/ exists f,
       Verify new_GPUCodeVerifier kernel_1024 (-1) (-1) (-1) (-1) (-1) (-1) = Stop f.
Proof.
  apply (limits_of_minus_one_accept_everything kernel_1024); reflexivity.
Defined.

Lemma looser_count_thread name e a b :
  looser a b -> looser (count_thread_ name e a) (count_thread_ name e b).
Proof.
  intros (Hn & Hvl & Hvs & Hvt & Hl & Hs & Ht & Hml & Hms & Hmt & Hmx & Hmy & Hmz & Hv).
  unfold count_thread_, and_valid_.
  repeat (match goal with |- context [if ?c then _ else _] => destruct c end);
    unfold looser; simpl; rewrite ?Hvt, ?Ht;
    repeat (split; [assumption || reflexivity|]);
    rewrite ?andb_true_iff, ?Z.leb_le; intuition lia.
Qed.

Lemma looser_annotate node key value a b :
  looser a b ->
  rel_result looser (annotate_ node key value a) (annotate_ node key value b).
Proof.
  intros H. destruct (String.eqb key storage_scope) eqn:Hs.
  - apply String.eqb_eq in Hs as ->. rewrite !annotate_storage_scope.
    destruct (as_StringImm value) as [scope|]; [|reflexivity].
    destruct H as (Hn & Hvl & Hvs & Hrest).
    destruct (String.eqb scope "local");
      [|destruct (String.eqb scope "shared")];
      unfold looser; simpl; rewrite ?Hvl, ?Hvs; auto.
  - destruct (String.eqb key thread_extent) eqn:Ht.
    + apply String.eqb_eq in Ht as ->. rewrite !annotate_thread_extent.
      destruct (as_IterVarNode node) as [iv|]; [|reflexivity].
      destruct (as_IntImm value) as [e|]; [|reflexivity].
      assert (Hvt : visited_threads_ b = visited_threads_ a) by apply H.
      rewrite Hvt.
      destruct (_ && _); [apply looser_count_thread|]; exact H.
    + unfold annotate_. rewrite Hs, Ht. exact H.
Qed.

Lemma looser_check_kernel a b :
  looser a b -> looser (check_kernel_ a) (check_kernel_ b).
Proof.
  intros (Hn & Hvl & Hvs & Hvt & Hl & Hs & Ht & Hml & Hms & Hmt & Hmx & Hmy & Hmz & Hv).
  unfold check_kernel_, and_valid_, looser. simpl. rewrite Hl, Hs, Ht.
  repeat (split; [assumption || reflexivity|]).
  rewrite !andb_true_iff, !Z.leb_le. intuition lia.
Qed.

Lemma looser_account v t n a b :
  looser a b -> looser (account_ v t n a) (account_ v t n b).
Proof.
  intros (Hn & Hvl & Hvs & Hvt & Hl & Hs & Ht & Hrest).
  unfold account_. rewrite Hvl, Hvs, Hl, Hs.
  repeat case_bool_decide; unfold looser; simpl; auto 20.
Qed.

Lemma looser_Reset a b : looser a b -> looser (Reset_ a) (Reset_ b).
Proof.
  intros (Hn & Hvl & Hvs & Hvt & Hl & Hs & Ht & Hrest).
  unfold looser. simpl. auto 20.
Qed.

Lemma looser_set_nest a b n :
  looser a b -> looser (set_nest_level_ a n) (set_nest_level_ b n).
Proof.
  intros (Hn & Hrest). unfold looser. simpl. auto.
Qed.

Lemma Visit_looser s a b : looser a b -> rel_result looser (Visit s a) (Visit s b).
Proof.
  apply (Visit_simulation looser).
  - intros x y H. apply H.
  - exact looser_Reset.
  - exact looser_set_nest.
  - exact looser_check_kernel.
  - exact looser_annotate.
  - exact looser_account.
Qed.

(** X4: verification is monotone in the limits: a tree accepted under six
    limits is accepted under any limits that are, as [size_t] values, at
    least as large; and raising limits never changes whether or why the
    verification stops. *)
Theorem raising_limits_keeps_acceptance :
  forall s this ml ms mt mx my mz ml' ms' mt' mx' my' mz',
    to_size_t ml <= to_size_t ml' -> to_size_t ms <= to_size_t ms' ->
    to_size_t mt <= to_size_t mt' -> to_size_t mx <= to_size_t mx' ->
    to_size_t my <= to_size_t my' -> to_size_t mz <= to_size_t mz' ->
    (Verify this s ml ms mt mx my mz = Ok true ->
     Verify this s ml' ms' mt' mx' my' mz' = Ok true)
    /\ (forall f, Verify this s ml ms mt mx my mz = Stop f <->
                  Verify this s ml' ms' mt' mx' my' mz' = Stop f).
Proof.
  intros s this ml ms mt mx my mz ml' ms' mt' mx' my' mz' Hl Hs Ht Hx Hy Hz.
  rewrite !Verify_configured.
  assert (H : looser (configured this ml ms mt mx my mz)
                     (configured this ml' ms' mt' mx' my' mz'))
    by (unfold looser; simpl; auto 20).
  apply (Visit_looser s) in H.
  destruct (Visit s (configured this ml ms mt mx my mz)) as [a|f],
           (Visit s (configured this ml' ms' mt' mx' my' mz')) as [b|g];
    simpl in *; try contradiction.
  - split.
    + intros [= Hv]. f_equal. apply H, Hv.
    + intros f. split; discriminate.
  - subst g. split; [discriminate|]. intros f'. reflexivity.
Qed.

Lemma raising_limits_keeps_acceptance_witness :
  Verify new_GPUCodeVerifier kernel_32_8 1 1 300 33 16 (-1) = Ok true.
Proof.
  apply (proj1 (raising_limits_keeps_acceptance kernel_32_8 new_GPUCodeVerifier
                  0 0 256 32 16 0 1 1 300 33 16 (-1)
                  ltac:(vm_compute; discriminate) ltac:(vm_compute; discriminate)
                  ltac:(vm_compute; discriminate) ltac:(vm_compute; discriminate)
                  ltac:(vm_compute; discriminate) ltac:(vm_compute; discriminate))).
  vm_compute. reflexivity.
Defined.

(** ** Classification targets that are not variables *)

Lemma same_but_null_refl a : same_but_null a a.
Proof. unfold same_but_null. auto 10 using same_config_refl. Qed.

Lemma same_but_null_account v t n a b :
  same_but_null a b -> same_but_null (account_ v t n a) (account_ v t n b).
Proof.
  intros (Hc & Hv & Hvt & Ht & Hl & Hs & Hml & Hms).
  unfold account_, get.
  assert (El : bool_decide (Some (var_addr v) ∈ visited_local_buffers_ a)
               = bool_decide (Some (var_addr v) ∈ visited_local_buffers_ b))
    by (apply bool_decide_ext, Hml).
  assert (Es : bool_decide (Some (var_addr v) ∈ visited_shared_buffers_ a)
               = bool_decide (Some (var_addr v) ∈ visited_shared_buffers_ b))
    by (apply bool_decide_ext, Hms).
  rewrite El, Es, Hl, Hs.
  repeat case_bool_decide; unfold same_but_null; simpl; auto 10.
Qed.

Lemma same_but_null_annotate node key value a b :
  same_but_null a b ->
  rel_result same_but_null (annotate_ node key value a) (annotate_ node key value b).
Proof.
  intros H. destruct (String.eqb key storage_scope) eqn:Hs.
  - apply String.eqb_eq in Hs as ->. rewrite !annotate_storage_scope.
    destruct (as_StringImm value) as [scope|]; [|reflexivity].
    pose proof H as (Hc & Hv & Hvt & Ht & Hl & Hsh & Hml & Hms).
    destruct (String.eqb scope "local"); [|destruct (String.eqb scope "shared")].
    + refine (conj Hc (conj Hv (conj Hvt (conj Ht (conj Hl (conj Hsh
                (conj _ Hms))))))).
      intros p. simpl. rewrite !elem_of_union, (Hml p). reflexivity.
    + refine (conj Hc (conj Hv (conj Hvt (conj Ht (conj Hl (conj Hsh
                (conj Hml _))))))).
      intros p. simpl. rewrite !elem_of_union, (Hms p). reflexivity.
    + exact H.
  - destruct (String.eqb key thread_extent) eqn:Ht.
    + apply String.eqb_eq in Ht as ->. rewrite !annotate_thread_extent.
      destruct (as_IterVarNode node) as [iv|]; [|reflexivity].
      destruct (as_IntImm value) as [e|]; [|reflexivity].
      pose proof H as ((Hn & Hbl & Hbs & Hbt & Hx & Hy & Hz)
                       & Hv & Hvt & Htp & Hl & Hsh & Hml & Hms).
      rewrite Hvt.
      destruct (_ && _); [|exact H].
      unfold count_thread_, and_valid_.
      repeat (match goal with |- context [if ?c then _ else _] => destruct c end);
        unfold same_but_null, same_config; simpl;
        rewrite ?Hvt, ?Htp, ?Hv, ?Hx, ?Hy, ?Hz; auto 20.
    + unfold annotate_. rewrite Hs, Ht. exact H.
Qed.

Lemma same_but_null_check_kernel a b :
  same_but_null a b -> same_but_null (check_kernel_ a) (check_kernel_ b).
Proof.
  intros ((Hn & Hbl & Hbs & Hbt & Hx & Hy & Hz)
          & Hv & Hvt & Htp & Hl & Hsh & Hml & Hms).
  unfold check_kernel_, and_valid_, same_but_null, same_config. simpl.
  rewrite Hv, Htp, Hl, Hsh, Hbl, Hbs, Hbt. auto 20.
Qed.

Lemma same_but_null_Reset a b :
  same_but_null a b -> same_but_null (Reset_ a) (Reset_ b).
Proof.
  intros (Hc & Hv & _). unfold same_but_null. simpl.
  split; [exact Hc|]. split; [exact Hv|]. auto 10.
Qed.

Lemma same_but_null_set_nest a b n :
  same_but_null a b -> same_but_null (set_nest_level_ a n) (set_nest_level_ b n).
Proof.
  intros ((Hn & Hb) & Hrest). unfold same_but_null, same_config. simpl. auto.
Qed.

Lemma Visit_same_but_null s a b :
  same_but_null a b -> rel_result same_but_null (Visit s a) (Visit s b).
Proof.
  apply (Visit_simulation same_but_null).
  - intros x y H. apply H.
  - exact same_but_null_Reset.
  - exact same_but_null_set_nest.
  - exact same_but_null_check_kernel.
  - exact same_but_null_annotate.
  - exact same_but_null_account.
Qed.

Lemma annotate_null_target node scope this :
  as_Variable node = None ->
  exists this1, annotate_ node storage_scope (StringImm scope) this = Ok this1
                /\ same_but_null this1 this.
Proof.
  intros Hnull. rewrite annotate_storage_scope, Hnull. simpl.
  destruct (String.eqb scope "local"); [|destruct (String.eqb scope "shared")];
    eexists; (split; [reflexivity|]); try apply same_but_null_refl.
  - refine (conj (same_config_refl _) (conj eq_refl (conj eq_refl (conj eq_refl
              (conj eq_refl (conj eq_refl (conj _ _))))))); intros p; simpl;
      rewrite ?elem_of_union, ?elem_of_singleton; intuition discriminate.
  - refine (conj (same_config_refl _) (conj eq_refl (conj eq_refl (conj eq_refl
              (conj eq_refl (conj eq_refl (conj _ _))))))); intros p; simpl;
      rewrite ?elem_of_union, ?elem_of_singleton; intuition discriminate.
Qed.

(** X5: a storage-scope annotation whose target is not a variable is not an
    error: the failed downcast's null pointer is put into the set, where it
    matches no allocation, so the annotation classifies nothing.  Visiting
    it is like visiting its subtree (the states differ only in the null
    entry, which no later step of any traversal can tell), and [Verify]
    returns the same for the annotated tree and for its subtree. *)
Theorem scope_on_non_variable_is_ignored :
  forall node scope body,
    as_Variable node = None ->
    (forall this,
       rel_result same_but_null
         (Visit (AttrStmt node storage_scope (StringImm scope) body) this)
         (Visit body this))
    /\ (forall s a b,
          same_but_null a b -> rel_result same_but_null (Visit s a) (Visit s b))
    /\ (forall this ml ms mt mx my mz,
          Verify this (AttrStmt node storage_scope (StringImm scope) body)
            ml ms mt mx my mz
          = Verify this body ml ms mt mx my mz).
Proof.
  intros node scope body Hnull.
  assert (Hstep : forall this,
             rel_result same_but_null
               (Visit (AttrStmt node storage_scope (StringImm scope) body) this)
               (Visit body this)).
  { intros this. rewrite Visit_AttrStmt_eq. unfold Visit_AttrStmt.
    destruct (annotate_null_target node scope this Hnull) as (this1 & -> & H1).
    simpl. apply Visit_same_but_null, H1. }
  split; [exact Hstep|]. split; [intros s a b; apply Visit_same_but_null|].
  intros this ml ms mt mx my mz. rewrite !Verify_configured.
  specialize (Hstep (configured this ml ms mt mx my mz)).
  destruct (Visit (AttrStmt _ _ _ _) _) as [a|f], (Visit body _) as [b|g];
    simpl in *; try contradiction.
  - destruct Hstep as (_ & Hv & _). congruence.
  - congruence.
Qed.

Lemma scope_on_non_variable_is_ignored_witness :
  Verify new_GPUCodeVerifier
    (AttrStmt threadIdx_x storage_scope (StringImm "shared") kernel_shared_4096)
    0 4096 1 1 1 1
  = Verify new_GPUCodeVerifier kernel_shared_4096 0 4096 1 1 1 1
  /\ VerifyGPUCode kernel_scope_on_itervar (shared_limit 1) = Ok true.
Proof.
  split.
  - apply (proj2 (proj2 (scope_on_non_variable_is_ignored
                           threadIdx_x "shared" kernel_shared_4096 eq_refl))).
  - vm_compute. reflexivity.
Defined.

(** ** Sibling kernels *)

Lemma Visit_checked_ProducerConsumer_Reset p body this :
  nest_level_ this = 0 ->
  Visit_checked (ProducerConsumer p body) this
  = Visit_checked (ProducerConsumer p body) (Reset_ this).
Proof.
  intros H0.
  change (Visit_checked (ProducerConsumer p body))
    with (Visit_ProducerConsumer_checked Visit_checked p body).
  unfold Visit_ProducerConsumer_checked.
  change (nest_level_ (Reset_ this)) with (nest_level_ this). rewrite H0.
  reflexivity.
Qed.

(** A marker visited at nest level 0 from any state is the marker visited
    from the state [Verify] starts in, up to the verdict. *)
Lemma Visit_marker_from_start k start a :
  is_marker k = true ->
  Reset_ start = start ->
  nest_level_ start = 0 ->
  same_config start a ->
  Visit k a = erase (revalid (valid_ a) (Visit_checked k start)).
Proof.
  intros Hk Hstart H0 (Hn & Hl & Hs & Ht & Hx & Hy & Hz).
  destruct k as [p body| | |]; try discriminate.
  rewrite <- blind_Visit_checked, erase_Visit_checked.
  rewrite (Visit_ProducerConsumer_Reset p body a) by congruence.
  f_equal. rewrite <- Hstart, !Reset_exact. unfold set_valid_. simpl. congruence.
Qed.

Lemma Verify_children_markers ks start :
  forallb is_marker ks = true ->
  Reset_ start = start ->
  nest_level_ start = 0 ->
  valid_ start = true ->
  forall a,
    same_config start a ->
    bind (visit_children ks a) (fun t => Ok (valid_ t))
    = bind (and_verdicts
              (map (fun k => bind (Visit k start) (fun t => Ok (valid_ t))) ks))
           (fun w => Ok (valid_ a && w)).
Proof.
  intros Hks Hstart H0 Hv.
  induction ks as [|k ks IH]; intros a Ha; simpl in *.
  - rewrite andb_true_r. reflexivity.
  - apply andb_true_iff in Hks as (Hk & Hks).
    rewrite (Visit_marker_from_start k start a Hk Hstart H0 Ha).
    rewrite <- (erase_Visit_checked k start).
    destruct (Visit_checked k start) as [[f checks]|e] eqn:E; simpl; [|reflexivity].
    pose proof (Visit_checked_valid _ _ _ _ E) as Hf. rewrite Hv in Hf. simpl in Hf.
    assert (Hcfg : same_config start f).
    { apply (Visit_config k). rewrite <- erase_Visit_checked, E. reflexivity. }
    rewrite (IH Hks (set_valid_ f (valid_ a && all_true checks)) Hcfg).
    destruct (and_verdicts _) as [w|e]; simpl; [|reflexivity].
    rewrite Hf, andb_assoc. reflexivity.
Qed.

(** X6: the verdict of a sequence of kernels is the conjunction of the
    verdicts of the kernels taken alone: for a node whose children are all
    kernel-region markers, [Verify] on a new verifier returns the AND of
    what it returns for each child under the same limits, and stops as
    the first child that stops. *)
Theorem siblings_verified_independently :
  forall ks ml ms mt mx my mz,
    forallb is_marker ks = true ->
    Verify new_GPUCodeVerifier (OtherStmt ks) ml ms mt mx my mz
    = and_verdicts
        (map (fun k => Verify new_GPUCodeVerifier k ml ms mt mx my mz) ks).
Proof.
  intros ks ml ms mt mx my mz Hks.
  rewrite Verify_configured, Visit_OtherStmt.
  rewrite (Verify_children_markers ks
             (configured new_GPUCodeVerifier ml ms mt mx my mz)
             Hks eq_refl eq_refl eq_refl _ (same_config_refl _)).
  simpl valid_. simpl andb.
  destruct (and_verdicts _) as [w|e]; reflexivity.
Qed.

Lemma siblings_verified_independently_witness :
  Verify new_GPUCodeVerifier (OtherStmt [kernel_32_8; kernel_1024; kernel_shared_4096])
    4096 4096 256 32 16 1
  = and_verdicts
      (map (fun k => Verify new_GPUCodeVerifier k 4096 4096 256 32 16 1)
         [kernel_32_8; kernel_1024; kernel_shared_4096]).
Proof.
  apply (siblings_verified_independently
           [kernel_32_8; kernel_1024; kernel_shared_4096]).
  reflexivity.
Defined.

(** ** The configuration mapping *)

Lemma get_int_insert_other (constraints : gmap string Expr) key e k def :
  key <> k ->
  get_int (<[key := e]> constraints) k def = get_int constraints k def.
Proof. intros Hne. unfold get_int. rewrite lookup_insert_ne by exact Hne. reflexivity. Qed.

Lemma get_int_delete_other (constraints : gmap string Expr) key k def :
  key <> k ->
  get_int (delete key constraints) k def = get_int constraints k def.
Proof. intros Hne. unfold get_int. rewrite lookup_delete_ne by exact Hne. reflexivity. Qed.

(** X7: [VerifyGPUCode] reads the six limit names and nothing else: an entry
    under any other key, whatever its value (a constant integer or not), can
    be added, changed or removed without changing the result. *)
Theorem other_keys_are_ignored :
  forall stmt (constraints : gmap string Expr) key e,
    key ∉ limit_names ->
    VerifyGPUCode stmt (<[key := e]> constraints) = VerifyGPUCode stmt constraints
    /\ VerifyGPUCode stmt (delete key constraints) = VerifyGPUCode stmt constraints.
Proof.
  intros stmt constraints key e Hkey.
  assert (Hne : forall k, k ∈ limit_names -> key <> k)
    by (intros k Hk ->; contradiction).
  unfold VerifyGPUCode.
  rewrite !get_int_insert_other, !get_int_delete_other
    by (apply Hne; by_decide).
  split; reflexivity.
Qed.

Lemma other_keys_are_ignored_witness :
  VerifyGPUCode kernel_32_8 (<["max_threads" := StringImm "many"]> limits_255)
  = VerifyGPUCode kernel_32_8 limits_255
  /\ VerifyGPUCode kernel_32_8 (delete "max_threads" limits_255)
     = VerifyGPUCode kernel_32_8 limits_255.
Proof.
  apply (other_keys_are_ignored kernel_32_8 limits_255 "max_threads"
           (StringImm "many")).
  by_decide.
Defined.

(** ** Using a verifier again *)

(** X8: [Verify] assigns the six bounds and resets the accountant, but not
    the verdict or the nest level.  Of the verifier it is called on it reads
    only those two members: any two verifiers with the same nest level and
    the same verdict give the same result, for every tree and all limits.
    And a verifier whose verdict is already false (one that has rejected a
    tree) never returns true again, for any tree and any limits. *)
Theorem rejecting_verifier_keeps_rejecting :
  (forall this other s ml ms mt mx my mz,
     nest_level_ other = nest_level_ this ->
     valid_ other = valid_ this ->
     Verify other s ml ms mt mx my mz = Verify this s ml ms mt mx my mz)
  /\ (forall this s ml ms mt mx my mz,
        valid_ this = false ->
        Verify this s ml ms mt mx my mz = Ok false
        \/ exists f, Verify this s ml ms mt mx my mz = Stop f).
Proof.
  split.
  - intros this other s ml ms mt mx my mz Hn Hv. rewrite !Verify_configured.
    replace (configured other ml ms mt mx my mz)
      with (configured this ml ms mt mx my mz); [reflexivity|].
    unfold configured. rewrite !Reset_exact. simpl. congruence.
  - intros this s ml ms mt mx my mz Hv. rewrite Verify_configured.
    destruct (Visit s _) as [this'|f] eqn:H; simpl; [left|right; eauto].
    destruct (Visit_checked_of_Visit _ _ _ H) as (checks & Hc).
    rewrite (Visit_checked_valid _ _ _ _ Hc). simpl. rewrite Hv. reflexivity.
Qed.

Lemma rejecting_verifier_keeps_rejecting_witness :
  Verify (set_valid_ after_kernel_1024 true) kernel_32_8 0 0 256 32 16 0
  = Verify new_GPUCodeVerifier kernel_32_8 0 0 256 32 16 0
  /\ Verify (set_valid_ new_GPUCodeVerifier false) kernel_32_8 0 0 256 32 16 0
     = Verify after_kernel_1024 kernel_32_8 0 0 256 32 16 0
  /\ (Verify after_kernel_1024 kernel_32_8 0 0 256 32 16 0 = Ok false
      \/ exists f, Verify after_kernel_1024 kernel_32_8 0 0 256 32 16 0 = Stop f).
Proof.
  split; [|split].
  - apply (proj1 rejecting_verifier_keeps_rejecting new_GPUCodeVerifier
             (set_valid_ after_kernel_1024 true)).
    + vm_compute. reflexivity.
    + reflexivity.
  - apply (proj1 rejecting_verifier_keeps_rejecting after_kernel_1024
             (set_valid_ new_GPUCodeVerifier false)).
    + vm_compute. reflexivity.
    + vm_compute. reflexivity.
  - apply (proj2 rejecting_verifier_keeps_rejecting after_kernel_1024 kernel_32_8).
    vm_compute. reflexivity.
Defined.

(** ** Markers nested in a producer kernel *)

Lemma account_set_nest v t n this m :
  account_ v t n (set_nest_level_ this m) = set_nest_level_ (account_ v t n this) m.
Proof. unfold account_. simpl. repeat case_bool_decide; reflexivity. Qed.

Lemma annotate_set_nest node key value this m :
  annotate_ node key value (set_nest_level_ this m)
  = map_result (fun t => set_nest_level_ t m) (annotate_ node key value this).
Proof.
  unfold annotate_, count_thread_, and_valid_. simpl.
  repeat (match goal with
          | |- context [if ?c then _ else _] => destruct c
          | |- context [match ?c with _ => _ end] => destruct c
          end; try reflexivity).
Qed.

(** Above nest level 0 the traversal does not depend on the nest level. *)
Lemma Visit_nest_shift s :
  forall this n m,
    0 < n -> 0 < m ->
    n + producer_depth s <= INT_MAX ->
    m + producer_depth s <= INT_MAX ->
    Visit s (set_nest_level_ this m)
    = map_result (fun t => set_nest_level_ t m) (Visit s (set_nest_level_ this n)).
Proof.
  induction s as [p body IH | v t k body IH | node key value body IH | cs IH]
    using Stmt_ind; intros this n m Hn Hm Hdn Hdm; simpl in Hdn, Hdm.
  - pose proof (producer_depth_nonneg body) as Hd.
    rewrite !Visit_ProducerConsumer_eq. unfold Visit_ProducerConsumer.
    simpl nest_level_.
    assert (En : (n =? 0) = false) by (apply Z.eqb_neq; lia).
    assert (Em : (m =? 0) = false) by (apply Z.eqb_neq; lia).
    rewrite En, Em. destruct p.
    + unfold incr_nest_level_, decr_nest_level_. simpl nest_level_.
      assert (En' : (n =? INT_MAX) = false) by (apply Z.eqb_neq; lia).
      assert (Em' : (m =? INT_MAX) = false) by (apply Z.eqb_neq; lia).
      rewrite En', Em'. simpl. rewrite !set_nest_level_twice.
      rewrite (IH this (n + 1) (m + 1)) by lia.
      destruct (Visit body (set_nest_level_ this (n + 1))) as [c|f] eqn:E;
        simpl; [|reflexivity].
      apply Visit_nest_level in E. simpl in E. rewrite E.
      replace (m + 1 - 1) with m by lia. replace (n + 1 - 1) with n by lia.
      rewrite En, Em. reflexivity.
    + rewrite (IH this n m) by lia.
      destruct (Visit body (set_nest_level_ this n)) as [c|f] eqn:E;
        simpl; [|reflexivity].
      apply Visit_nest_level in E. simpl in E. rewrite E, En, Em. reflexivity.
  - rewrite !Visit_Allocate_account. rewrite (IH this n m) by lia.
    destruct (Visit body (set_nest_level_ this n)) as [c|f]; simpl; [|reflexivity].
    rewrite account_set_nest. reflexivity.
  - rewrite !Visit_AttrStmt_eq. unfold Visit_AttrStmt.
    rewrite !annotate_set_nest.
    destruct (annotate_ node key value this) as [c|f]; simpl; [|reflexivity].
    apply IH; assumption.
  - rewrite !Visit_OtherStmt. revert this Hdn Hdm.
    induction IH as [|c cs Hc _ IHcs]; simpl; intros this Hdn Hdm; [reflexivity|].
    rewrite (Hc this n m) by lia.
    destruct (Visit c (set_nest_level_ this n)) as [d|f] eqn:E; simpl; [|reflexivity].
    apply Visit_nest_level in E. simpl in E.
    rewrite <- (set_nest_level_id d) at 2. rewrite E.
    apply IHcs; lia.
Qed.

Lemma Visit_nested_marker p body this :
  0 < nest_level_ this ->
  nest_level_ this + producer_depth (ProducerConsumer p body) <= INT_MAX ->
  Visit (ProducerConsumer p body) this = Visit body this.
Proof.
  intros Hpos Hd. simpl in Hd.
  pose proof (producer_depth_nonneg body) as Hb.
  assert (E0 : (nest_level_ this =? 0) = false) by (apply Z.eqb_neq; lia).
  destruct p.
  - rewrite Visit_ProducerConsumer_spec by lia.
    unfold entered. rewrite E0.
    rewrite (Visit_nest_shift body this (nest_level_ this) (nest_level_ this + 1))
      by lia.
    rewrite set_nest_level_id.
    destruct (Visit body this) as [c|f] eqn:E; simpl; [|reflexivity].
    rewrite <- (Visit_nest_level _ _ _ E). f_equal.
    exact (set_nest_level_id c).
  - rewrite Visit_ProducerConsumer_eq. unfold Visit_ProducerConsumer.
    rewrite E0.
    destruct (Visit body this) as [c|f] eqn:E; simpl; [|reflexivity].
    rewrite (Visit_nest_level _ _ _ E), E0. reflexivity.
Qed.

(** X9: only the outermost marker of a kernel matters.  Inside a producer
    kernel (nest level above 0, and producers nested no deeper than the nest
    counter can count) a marker, producer or not, neither resets nor checks:
    visiting it is visiting its body.  So a kernel whose body is itself a
    marker is verified as the kernel over the inner body. *)
Theorem nested_marker_is_transparent :
  forall p body,
    (forall this,
       0 < nest_level_ this ->
       nest_level_ this + producer_depth (ProducerConsumer p body) <= INT_MAX ->
       Visit (ProducerConsumer p body) this = Visit body this)
    /\ (forall ml ms mt mx my mz,
          producer_depth body + 2 <= INT_MAX ->
          Verify new_GPUCodeVerifier
            (ProducerConsumer true (ProducerConsumer p body)) ml ms mt mx my mz
          = Verify new_GPUCodeVerifier (ProducerConsumer true body)
              ml ms mt mx my mz).
Proof.
  intros p body. split; [apply Visit_nested_marker|].
  intros ml ms mt mx my mz Hd. rewrite !Verify_configured.
  rewrite !(Visit_ProducerConsumer_spec true) by (vm_compute; discriminate).
  unfold entered. simpl (nest_level_ _). simpl (0 =? 0).
  rewrite Visit_nested_marker; [reflexivity|simpl; lia|].
  simpl. destruct p; lia.
Qed.

Lemma nested_marker_is_transparent_witness :
  Visit (ProducerConsumer true kernel_shared_4096)
    (set_nest_level_ new_GPUCodeVerifier 1)
  = Visit kernel_shared_4096 (set_nest_level_ new_GPUCodeVerifier 1)
  /\ Verify new_GPUCodeVerifier
       (ProducerConsumer true (ProducerConsumer false kernel_1024)) 0 0 256 32 16 0
     = Verify new_GPUCodeVerifier (ProducerConsumer true kernel_1024) 0 0 256 32 16 0.
Proof.
  split.
  - apply (proj1 (nested_marker_is_transparent true kernel_shared_4096)).
    + simpl. lia.
    + vm_compute. discriminate.
  - apply (proj2 (nested_marker_is_transparent false kernel_1024)).
    vm_compute. discriminate.
Defined.

(** ** What is checked only at a kernel's exit *)

Lemma same_but_block_bounds_annotate node key value a b :
  same_but_block_bounds a b ->
  rel_result same_but_block_bounds
    (annotate_ node key value a) (annotate_ node key value b).
Proof.
  unfold same_but_block_bounds. intros ->.
  unfold annotate_, count_thread_, and_valid_. simpl.
  repeat (match goal with
          | |- context [if ?c then _ else _] => destruct c
          | |- context [match ?c with _ => _ end] => destruct c
          end; try reflexivity).
Qed.

Lemma same_but_block_bounds_account v t n a b :
  same_but_block_bounds a b ->
  same_but_block_bounds (account_ v t n a) (account_ v t n b).
Proof.
  unfold same_but_block_bounds. intros ->. unfold account_. simpl.
  repeat case_bool_decide; reflexivity.
Qed.

Lemma Visit_same_but_block_bounds s :
  no_kernel_marker s = true ->
  forall a b,
    same_but_block_bounds a b ->
    rel_result same_but_block_bounds (Visit s a) (Visit s b).
Proof.
  induction s as [p body IH | v t n body IH | node key value body IH | cs IH]
    using Stmt_ind; intros Hk a b H; simpl in Hk.
  - discriminate.
  - rewrite !Visit_Allocate_account.
    apply rel_result_bind; [auto|].
    intros a1 b1 H1. apply same_but_block_bounds_account, H1.
  - rewrite !Visit_AttrStmt_eq. unfold Visit_AttrStmt.
    apply rel_result_bind; [apply same_but_block_bounds_annotate, H|auto].
  - rewrite !Visit_OtherStmt. revert a b H.
    induction IH as [|c cs Hc _ IHcs]; simpl in *; intros a b H; [exact H|].
    apply andb_true_iff in Hk as (Hk1 & Hk).
    apply rel_result_bind; auto.
Qed.

(** X10: the limits on local memory, shared memory and threads per block
    are consulted only when a kernel-region marker is left: for a tree
    without any marker the result of [Verify] is the same whatever these
    three limits are. *)
Theorem block_limits_need_a_marker :
  forall s this ml ms mt ml' ms' mt' mx my mz,
    no_kernel_marker s = true ->
    Verify this s ml ms mt mx my mz = Verify this s ml' ms' mt' mx my mz.
Proof.
  intros s this ml ms mt ml' ms' mt' mx my mz Hk. rewrite !Verify_configured.
  pose proof (Visit_same_but_block_bounds s Hk
                (configured this ml ms mt mx my mz)
                (configured this ml' ms' mt' mx my mz) eq_refl) as H.
  destruct (Visit s (configured this ml ms mt mx my mz)) as [a|f],
           (Visit s (configured this ml' ms' mt' mx my mz)) as [b|g];
    simpl in *; try contradiction; [|congruence].
  unfold same_but_block_bounds in H. rewrite H. reflexivity.
Qed.

Lemma block_limits_need_a_marker_witness :
  Verify new_GPUCodeVerifier allocations_outside_kernel 0 0 0 32 1 1
  = Verify new_GPUCodeVerifier allocations_outside_kernel 7 8 9 32 1 1.
Proof.
  apply (block_limits_need_a_marker allocations_outside_kernel). reflexivity.
Defined.

(** ** Allocations of size zero *)

Lemma size_add_zero c : 0 <= c < SIZE_MODULUS -> size_add c 0 = c.
Proof. intros H. unfold size_add. rewrite Z.add_0_r. apply to_size_t_small, H. Qed.

Lemma allocation_size_zero_l t : allocation_size 0 t = 0.
Proof. reflexivity. Qed.

Lemma allocation_size_zero_r n : allocation_size n 0 = 0.
Proof.
  unfold allocation_size, size_mul. change (to_size_t 0) with 0.
  rewrite Z.mul_0_r. reflexivity.
Qed.

Lemma account_zero v t n this :
  allocation_size n t = 0 -> counters_in_range this -> account_ v t n this = this.
Proof.
  intros Hz (Ht & Hl & Hs). unfold account_. rewrite Hz.
  rewrite !size_add_zero by assumption.
  repeat case_bool_decide; destruct this; reflexivity.
Qed.

(** X11: an allocation whose constant element count is 0, or whose element
    width is 0 bytes, is never accounted, however its buffer is classified:
    from a state whose counters hold [size_t] values (as every state of a
    run of [Verify] does), visiting the allocation is visiting its body. *)
Theorem empty_allocation_is_free :
  forall v t n body this,
    n = 0 \/ t = 0 ->
    counters_in_range this ->
    Visit (Allocate v t n body) this = Visit body this.
Proof.
  intros v t n body this Hz Hr. rewrite Visit_Allocate_account.
  destruct (Visit body this) as [mid|f] eqn:E; simpl; [|reflexivity].
  f_equal. apply account_zero.
  - destruct Hz as [-> | ->];
      [apply allocation_size_zero_l | apply allocation_size_zero_r].
  - exact (Visit_in_range body this mid Hr E).
Qed.

Lemma empty_allocation_is_free_witness :
  Visit (Allocate buffer_A 4 0 Evaluate)
    (set_visited_shared_buffers_ start_256 {[ get buffer_A ]})
  = Visit Evaluate (set_visited_shared_buffers_ start_256 {[ get buffer_A ]}).
Proof.
  apply (empty_allocation_is_free buffer_A 4 0 Evaluate).
  - left. reflexivity.
  - vm_compute. repeat split; discriminate.
Defined.

(** ** The order of kernels *)

Lemma and_verdicts_cons_Ok r rs v :
  and_verdicts (r :: rs) = Ok v ->
  exists a w, r = Ok a /\ and_verdicts rs = Ok w /\ v = a && w.
Proof.
  simpl. destruct r as [a|f]; simpl; [|discriminate].
  destruct (and_verdicts rs) as [w|f]; simpl; [|discriminate].
  intros [= <-]. eauto.
Qed.

Lemma and_verdicts_Permutation rs rs' :
  Permutation rs rs' ->
  forall v, and_verdicts rs = Ok v -> and_verdicts rs' = Ok v.
Proof.
  induction 1 as [|r rs rs' _ IH|r1 r2 rs|rs rs1 rs2 _ IH1 _ IH2]; intros v H.
  - exact H.
  - apply and_verdicts_cons_Ok in H as (a & w & -> & Hw & ->).
    simpl. rewrite (IH w Hw). reflexivity.
  - apply and_verdicts_cons_Ok in H as (a & w & -> & Hw & ->).
    apply and_verdicts_cons_Ok in Hw as (b & u & -> & Hu & ->).
    simpl. rewrite Hu. simpl. f_equal. destruct a, b, u; reflexivity.
  - auto.
Qed.

(** X12: the verdict does not depend on the order of the kernels: when
    [Verify] on a new verifier returns a verdict for a node whose children
    are all kernel-region markers, it returns the same verdict for the node
    with its children in any other order. *)
Theorem kernel_order_is_irrelevant :
  forall ks ks' ml ms mt mx my mz v,
    forallb is_marker ks = true ->
    Permutation ks ks' ->
    Verify new_GPUCodeVerifier (OtherStmt ks) ml ms mt mx my mz = Ok v ->
    Verify new_GPUCodeVerifier (OtherStmt ks') ml ms mt mx my mz = Ok v.
Proof.
  intros ks ks' ml ms mt mx my mz v Hks Hperm H.
  assert (Hks' : forallb is_marker ks' = true).
  { apply forallb_forall. intros k Hk.
    apply (proj1 (forallb_forall _ _) Hks).
    apply (Permutation_in k (Permutation_sym Hperm) Hk). }
  pose proof (Verify_children_markers ks
                (configured new_GPUCodeVerifier ml ms mt mx my mz)
                Hks eq_refl eq_refl eq_refl _ (same_config_refl _)) as E.
  pose proof (Verify_children_markers ks'
                (configured new_GPUCodeVerifier ml ms mt mx my mz)
                Hks' eq_refl eq_refl eq_refl _ (same_config_refl _)) as E'.
  rewrite Verify_configured, Visit_OtherStmt in H |- *.
  rewrite E in H. rewrite E'. clear E E'.
  destruct (and_verdicts (map _ ks)) as [w|f] eqn:Hw; simpl in H; [|discriminate].
  rewrite (and_verdicts_Permutation _ _
             (Permutation_map _ Hperm) w Hw).
  exact H.
Qed.

Lemma kernel_order_is_irrelevant_witness :
  Verify new_GPUCodeVerifier (OtherStmt [kernel_1024; kernel_32_8]) 0 0 256 32 16 0
  = Ok false.
Proof.
  apply (kernel_order_is_irrelevant [kernel_32_8; kernel_1024]
           [kernel_1024; kernel_32_8]).
  - reflexivity.
  - apply perm_swap.
  - vm_compute. reflexivity.
Defined.
